(** * Activity import: CSV mapping, row transformation and the save-and-check mutation

    A shallow embedding of the activity import form ([ActivityImportForm],
    with its callbacks [getMappedValue], [getMappedActivityType] and
    [handleImport]) and of the hook [useActivityImportMutations]
    ([saveAndCheckImportMutation]), followed by the properties the
    specification states about them.

    Conventions of the embedding:
    - a JavaScript string is a [string]; the string primitives ([trim],
      [toUpperCase]) are given for ASCII text, the input domain of the CSV
      scenarios: bytes above 127 are neither white space nor letters;
    - a value of type [string] that may be [undefined] at run time (an array
      read past the end) is a [cell];
    - a JavaScript number is an IEEE 754 binary64 value, [spec_float] at
      precision 53 and maximal exponent 1024, with a single NaN;
    - an exception is a [Throw] in [result]; code that calls collaborators
      runs in the monad [M] over a [World] that records the persisted
      mappings and the trace of observable calls. *)

From Stdlib Require Import String Ascii List ZArith Lia Bool.
From Stdlib Require Import SpecFloat.
From stdpp Require Import gmap strings.
Import ListNotations.
Open Scope string_scope.

(** ** JavaScript primitives used by the source *)

Module JS.

(** *** Strings *)

(** White space and line terminators below U+0080: TAB, LF, VT, FF, CR, SP. *)
Definition isWhiteSpace (c : ascii) : bool :=
  let n := N_of_ascii c in
  ((9 <=? n) && (n <=? 13) || (n =? 32))%N.

Fixpoint trimStart (s : string) : string :=
  match s with
  | EmptyString => EmptyString
  | String c rest => if isWhiteSpace c then trimStart rest else s
  end.

Fixpoint trimEnd (s : string) : string :=
  match s with
  | EmptyString => EmptyString
  | String c rest =>
      match trimEnd rest with
      | EmptyString => if isWhiteSpace c then EmptyString else String c EmptyString
      | kept => String c kept
      end
  end.

(** [String.prototype.trim]. *)
Definition trim (s : string) : string := trimEnd (trimStart s).

Definition upperChar (c : ascii) : ascii :=
  let n := N_of_ascii c in
  if ((97 <=? n) && (n <=? 122))%N then ascii_of_N (n - 32) else c.

(** [String.prototype.toUpperCase]. *)
Fixpoint toUpperCase (s : string) : string :=
  match s with
  | EmptyString => EmptyString
  | String c rest => String (upperChar c) (toUpperCase rest)
  end.

(** [s.startsWith(p)]. *)
Definition startsWith (s p : string) : bool := String.prefix p s.

(** [Array.prototype.indexOf] on an array of strings: the first index
    holding [x], or [-1]. *)
Fixpoint indexOfFrom (l : list string) (x : string) (i : Z) : Z :=
  match l with
  | [] => (-1)%Z
  | h :: t => if String.eqb h x then i else indexOfFrom t x (i + 1)%Z
  end.

Definition indexOf (l : list string) (x : string) : Z := indexOfFrom l x 0%Z.

(** *** Values that may be [undefined] *)

Inductive cell : Type :=
| Undefined
| Str (s : string).

(** [row[i]]: the element, or [undefined] outside the array. *)
Definition at_index (row : list string) (i : Z) : cell :=
  if (i <? 0)%Z then Undefined
  else match nth_error row (Z.to_nat i) with
       | Some s => Str s
       | None => Undefined
       end.

(** Truthiness of a string or [undefined]. *)
Definition truthyCell (c : cell) : bool :=
  match c with
  | Undefined => false
  | Str EmptyString => false
  | Str _ => true
  end.

(** [ToString], as template literals and [parseFloat] apply it. *)
Definition toStringCell (c : cell) : string :=
  match c with
  | Undefined => "undefined"
  | Str s => s
  end.

(** *** Exceptions *)

(** A thrown or rejected value: an [Error] object (its [name] and
    [message]) or a bare string, as a backend command rejects with. *)
Inductive JsError : Type :=
| ErrorObj (name message : string)
| ErrorStr (s : string).

(** [error.message]. *)
Definition errorMessage (e : JsError) : cell :=
  match e with
  | ErrorObj _ m => Str m
  | ErrorStr _ => Undefined
  end.

(** [String(error)], through [Error.prototype.toString]. *)
Definition toStringError (e : JsError) : string :=
  match e with
  | ErrorObj name m =>
      if String.eqb name "" then m
      else if String.eqb m "" then name
      else name ++ ": " ++ m
  | ErrorStr s => s
  end.

(** The [TypeError] of a property read on [undefined]; the wording of the
    message is the engine's, and nothing below depends on it. *)
Definition typeErrorReading (prop : string) : JsError :=
  ErrorObj "TypeError"
    ("Cannot read properties of undefined (reading '" ++ prop ++ "')").

Inductive result (A : Type) : Type :=
| Ok (a : A)
| Throw (e : JsError).
Arguments Ok {A} a.
Arguments Throw {A} e.

Definition bindR {A B} (r : result A) (k : A -> result B) : result B :=
  match r with
  | Ok a => k a
  | Throw e => Throw e
  end.

(** [xs.map(f)] when [f] may throw: the first exception aborts the map. *)
Fixpoint mapR {A B} (f : A -> result B) (xs : list A) : result (list B) :=
  match xs with
  | [] => Ok []
  | x :: rest =>
      bindR (f x) (fun y => bindR (mapR f rest) (fun ys => Ok (y :: ys)))
  end.

(** [s.trim()] on a value that may be [undefined]. *)
Definition trimCell (c : cell) : result string :=
  match c with
  | Undefined => Throw (typeErrorReading "trim")
  | Str s => Ok (trim s)
  end.

(** *** Numbers *)

(** The binary64 format: 53 bits of precision, exponents below 1024. *)
Definition prec : Z := 53.
Definition emax : Z := 1024.

Definition number : Type := spec_float.

Definition NaN : number := S754_nan.
Definition zero : number := S754_zero false.
Definition one : number := Eval vm_compute in binary_normalize prec emax 1 0 false.

Definition mul (x y : number) : number := SFmul prec emax x y.

(** [x == y] on numbers: NaN equals nothing, the two zeros are equal. *)
Definition eqN (x y : number) : bool := SFeqb x y.

Definition isNaN (x : number) : bool :=
  match x with
  | S754_nan => true
  | _ => false
  end.

Definition isZero (x : number) : bool :=
  match x with
  | S754_zero _ => true
  | _ => false
  end.

(** Truthiness of a number: every number but NaN, [0] and [-0]. *)
Definition truthyN (x : number) : bool := negb (isNaN x || isZero x).

(** [x || d] on numbers. *)
Definition orN (x d : number) : number := if truthyN x then x else d.

(** *** parseFloat *)

Definition isDigit (c : ascii) : bool :=
  let n := N_of_ascii c in ((48 <=? n) && (n <=? 57))%N.

Definition digitValue (c : ascii) : Z := Z.of_N (N_of_ascii c) - 48.

(** Reads the longest run of decimal digits at the head of [s]: the
    accumulated value, the number of digits read, and the rest. *)
Fixpoint scanDigits (s : string) (acc : Z) (count : Z) : Z * Z * string :=
  match s with
  | String c rest =>
      if isDigit c then scanDigits rest (acc * 10 + digitValue c) (count + 1)
      else (acc, count, s)
  | EmptyString => (acc, count, s)
  end.

(** An optional sign: [true] for a minus. *)
Definition scanSign (s : string) : bool * string :=
  match s with
  | String "-" rest => (true, rest)
  | String "+" rest => (false, rest)
  | _ => (false, s)
  end.

(** The exponent part [e], [E] followed by an optionally signed run of
    digits; an indicator without digits is not part of the literal. *)
Definition scanExponent (s : string) : Z :=
  match s with
  | String c rest =>
      if (Ascii.eqb c "e" || Ascii.eqb c "E")%bool then
        let '(neg, digits) := scanSign rest in
        let '(v, n, _) := scanDigits digits 0 0 in
        if (n =? 0)%Z then 0%Z else if neg then (- v)%Z else v
      else 0%Z
  | EmptyString => 0%Z
  end.

(** The number nearest to [m * 10^e], ties to even. *)
Definition ofDecimal (neg : bool) (m e : Z) : number :=
  match m with
  | Zpos p =>
      match e with
      | Zneg k =>
          let '(q, e2, loc) :=
            SFdiv_core_binary prec emax (Zpos p) 0 (Z.pow 10 (Zpos k)) 0 in
          binary_round_aux prec emax neg q e2 loc
      | _ =>
          match (Zpos p * Z.pow 10 e)%Z with
          | Zpos n => binary_round prec emax neg n 0
          | _ => S754_zero neg
          end
      end
  | _ => S754_zero neg
  end.

(** The longest prefix of [s] that is a [StrDecimalLiteral], as a
    number; [None] when no prefix is one. *)
Definition scanDecimalLiteral (s : string) : option number :=
  let '(neg, body) := scanSign s in
  if startsWith body "Infinity" then Some (S754_infinity neg)
  else
    let '(mi, ni, afterInt) := scanDigits body 0 0 in
    match afterInt with
    | String "." frac =>
        let '(m, n, afterFrac) := scanDigits frac mi ni in
        if (n =? 0)%Z then None
        else Some (ofDecimal neg m (scanExponent afterFrac - (n - ni)))
    | _ =>
        if (ni =? 0)%Z then None
        else Some (ofDecimal neg mi (scanExponent afterInt))
    end.

Definition parseFloatString (s : string) : number :=
  match scanDecimalLiteral (trimStart s) with
  | Some x => x
  | None => NaN
  end.

(** [parseFloat(v)]: the argument goes through [ToString] first. *)
Definition parseFloat (v : cell) : number := parseFloatString (toStringCell v).

End JS.

Import JS.

(** ** Data model *)

(** Modelled from the spec: the type declarations of [@/lib/types] are
    missing from the embedded files. [ImportFormat] is the closed
    enumeration of logical fields (Date, Symbol, ActivityType, Quantity,
    UnitPrice, Currency, Fee, Amount), each of which the form reads. *)
Inductive ImportFormat : Type :=
| Date
| Symbol
| ActivityType
| Quantity
| UnitPrice
| Currency
| Fee
| Amount.

(** An internal activity type is a string at run time: the matcher returns
    an unmapped CSV value under a cast. *)
Definition ActivityTypeName : Type := string.

(** Modelled from the spec: [ImportMappingData], with the four fields the
    sources read. [fieldMappings] is a partial record over [ImportFormat];
    [activityMappings] is kept as its [Object.entries] sequence, whose
    order decides the matcher, and whose values may be [undefined];
    [symbolMappings] is a dictionary from raw to canonical ticker. *)
Record ImportMappingData : Type := {
  accountId : string;
  fieldMappings : ImportFormat -> option string;
  activityMappings : list (ActivityTypeName * option (list string));
  symbolMappings : gmap string string
}.

(** Modelled from the spec: [Account], with the fields [id], [name] and
    [currency] of the account lookup. *)
Record Account : Type := {
  account_id : string;
  account_name : string;
  account_currency : string
}.

(** The record [handleImport] builds for each data row ([ActivityImport]). *)
Record ActivityImport : Type := {
  act_date : cell;
  act_assetId : string;
  act_symbol : string;
  act_activityType : ActivityTypeName;
  act_quantity : number;
  act_unitPrice : number;
  act_currency : cell;
  act_fee : number;
  act_amount : option number;
  act_accountId : string;
  act_isValid : bool;
  act_isDraft : bool;
  act_comment : string
}.

(** The error report of [validateActivities]: row key to messages. *)
Abbreviation ValidationErrors := (gmap string (list string)).

(** ** The import form: field resolver, type matcher, row transformer *)

Section RowTransformer.

(** State of the component: the parsed header row, the mapping being
    edited, the fetched accounts ([undefined] until loaded). *)
Variable headers : list string.
Variable mapping : ImportMappingData.
Variable accounts : option (list Account).

(** [isCashActivity] is imported from [./utils/csvValidation], which is
    missing from the embedded files: the classifier is a parameter. *)
Variable isCashActivity : ActivityTypeName -> bool.

(** [mapping.fieldMappings[field] || ''] *)
Definition mappedHeader (field : ImportFormat) : string :=
  match fieldMappings mapping field with
  | Some h => h
  | None => ""
  end.

Definition getMappedValue (row : list string) (field : ImportFormat) : cell :=
  let columnIndex := indexOf headers (mappedHeader field) in
  if (columnIndex =? -1)%Z then Str ""
  else at_index row columnIndex.

(** The callback of [csvTypes?.some(...)]. *)
Definition matchesMappedType (normalizedCsvType mappedType : string) : bool :=
  let normalizedMappedType := toUpperCase (trim mappedType) in
  startsWith normalizedCsvType normalizedMappedType.

(** [csvTypes?.some(...)]: [undefined] is falsy. *)
Definition someMatches (normalizedCsvType : string)
    (csvTypes : option (list string)) : bool :=
  match csvTypes with
  | Some l => existsb (matchesMappedType normalizedCsvType) l
  | None => false
  end.

(** The [for ... of Object.entries(activityMappings)] loop with its early
    return. *)
Fixpoint firstMappedType (normalizedCsvType : string)
    (entries : list (ActivityTypeName * option (list string)))
    : option ActivityTypeName :=
  match entries with
  | [] => None
  | (appType, csvTypes) :: rest =>
      if someMatches normalizedCsvType csvTypes then Some appType
      else firstMappedType normalizedCsvType rest
  end.

(** The body of [getMappedActivityType] once [csvType] is a string. *)
Definition matchActivityType (csvType : string) : ActivityTypeName :=
  let normalizedCsvType := toUpperCase (trim csvType) in
  match firstMappedType normalizedCsvType (activityMappings mapping) with
  | Some appType => appType
  | None => csvType
  end.

Definition getMappedActivityType (row : list string) : result ActivityTypeName :=
  match getMappedValue row ActivityType with
  | Undefined => Throw (typeErrorReading "trim")
  | Str csvType => Ok (matchActivityType csvType)
  end.

(** [amount] after [if (rawAmount) amount = parseFloat(rawAmount) || undefined]. *)
Definition parsedAmount (row : list string) : option number :=
  let rawAmount := getMappedValue row Amount in
  if truthyCell rawAmount then
    let a := parseFloat rawAmount in
    if truthyN a then Some a else None
  else None.

(** Truthiness of [amount : number | undefined]. *)
Definition truthyAmount (amount : option number) : bool :=
  match amount with
  | Some a => truthyN a
  | None => false
  end.

(** [amount], [quantity], [unitPrice] at the end of the [if (isCash)]
    statement. *)
Definition deriveAmounts (isCash : bool) (row : list string)
    : option number * number * number :=
  let amount := parsedAmount row in
  if isCash then
    let amount :=
      if negb (truthyAmount amount) then
        let quantity := orN (parseFloat (getMappedValue row Quantity)) one in
        let unitPrice := orN (parseFloat (getMappedValue row UnitPrice)) zero in
        Some (mul quantity unitPrice)
      else amount in
    let quantity := one in
    let unitPrice := match amount with
                     | Some a => orN a zero
                     | None => zero
                     end in
    (amount, quantity, unitPrice)
  else
    let quantity := parseFloat (getMappedValue row Quantity) in
    let unitPrice := parseFloat (getMappedValue row UnitPrice) in
    (amount, quantity, unitPrice).

(** [accounts?.find((a) => a.id === mapping.accountId)?.currency] *)
Definition accountCurrency : cell :=
  match accounts with
  | Some l =>
      match find (fun a => String.eqb (account_id a) (accountId mapping)) l with
      | Some a => Str (account_currency a)
      | None => Undefined
      end
  | None => Undefined
  end.

(** [mapping.symbolMappings[rawSymbol] || rawSymbol], on the entries of
    the dictionary itself. *)
Definition mappedSymbol (rawSymbol : string) : string :=
  match symbolMappings mapping !! rawSymbol with
  | Some s => if truthyCell (Str s) then s else rawSymbol
  | None => rawSymbol
  end.

(** The callback of [csvData.slice(1).map(...)] in [handleImport]. *)
Definition transformRow (row : list string) : result ActivityImport :=
  bindR (getMappedActivityType row) (fun activityType =>
  let isCash := isCashActivity activityType in
  let '(amount, quantity, unitPrice) := deriveAmounts isCash row in
  let currency :=
    let c := getMappedValue row Currency in
    if truthyCell c then c else accountCurrency in
  bindR (trimCell (getMappedValue row Symbol)) (fun rawSymbol =>
  let symbol := mappedSymbol rawSymbol in
  Ok {| act_date := getMappedValue row Date;
        act_assetId := symbol;
        act_symbol := symbol;
        act_activityType := activityType;
        act_quantity := quantity;
        act_unitPrice := unitPrice;
        act_currency := currency;
        act_fee := orN (parseFloat (getMappedValue row Fee)) zero;
        act_amount := amount;
        act_accountId := accountId mapping;
        act_isValid := false;
        act_isDraft := true;
        act_comment := "" |})).

End RowTransformer.


(** ** Collaborators and effects *)

(** What the form and the hook do to the outside: calls of the backend
    commands, of the query client, of the toast, of the parser's
    [setValidationErrors], and of the callbacks [onSuccess] and [onError]
    the page hands to the form. *)
Inductive Event : Type :=
| SaveAccountImportMapping (data : ImportMappingData)
| CheckActivitiesImport (account_id : string) (activities : list ActivityImport)
| InvalidateImportMapping
| ToastDestructive (title : string) (description : cell)
| SetValidationErrors (errors : ValidationErrors)
| CallOnSuccess (activities : list ActivityImport)
| CallOnError (error : string).

(** The mapping store of the backend, keyed by account, and the calls made
    so far, oldest first. *)
Record World : Type := {
  persisted : gmap string ImportMappingData;
  trace : list Event
}.

(** Computations that change the world and may throw (or, for a promise,
    reject). *)
Definition M (A : Type) : Type := World -> World * result A.

Definition ret {A} (a : A) : M A := fun w => (w, Ok a).

Definition throw {A} (e : JsError) : M A := fun w => (w, Throw e).

Definition bind {A B} (c : M A) (k : A -> M B) : M B :=
  fun w =>
    match c w with
    | (w1, Ok a) => k a w1
    | (w1, Throw e) => (w1, Throw e)
    end.

Notation "x <- c1 ;; c2" := (bind c1 (fun x => c2))
  (at level 100, c1 at next level, right associativity).

(** [try { c } catch (error) { handler }] *)
Definition tryCatch {A} (c : M A) (handler : JsError -> M A) : M A :=
  fun w =>
    match c w with
    | (w1, Ok a) => (w1, Ok a)
    | (w1, Throw e) => handler e w1
    end.

Definition liftR {A} (r : result A) : M A := fun w => (w, r).

Definition emit (ev : Event) : M unit :=
  fun w => ({| persisted := persisted w; trace := trace w ++ [ev] |}, Ok tt).

(** [callback?.(x)] *)
Definition callOptional {A} (callback : option (A -> M unit)) (x : A) : M unit :=
  match callback with
  | Some f => f x
  | None => ret tt
  end.

(** The callbacks [onSuccess] and [onError] of the caller: the page for
    the form, the form for the hook. What they do is the caller's; that they
    are called, and with what, is recorded. *)
Definition propsOnSuccess (activities : list ActivityImport) : M unit :=
  emit (CallOnSuccess activities).

Definition propsOnError (error : string) : M unit :=
  emit (CallOnError error).

Section Backend.

(** Whether the backend acknowledges a mapping or rejects it, and what the
    server-side check answers. *)
Variable saveOutcome : ImportMappingData -> option JsError.
Variable checkOutcome : string -> list ActivityImport -> JsError + list ActivityImport.

(** Modelled from the spec: [saveAccountImportMapping] of
    [@/commands/activity-import] is missing from the embedded files. Its
    success persists the mapping, an upsert keyed by [accountId]; its
    failure rejects and persists nothing. *)
Definition saveAccountImportMapping (data : ImportMappingData) : M unit :=
  _ <- emit (SaveAccountImportMapping data) ;;
  fun w =>
    match saveOutcome data with
    | None =>
        ({| persisted := <[accountId data := data]> (persisted w);
            trace := trace w |}, Ok tt)
    | Some e => (w, Throw e)
    end.

(** Modelled from the spec: [checkActivitiesImport] of
    [@/commands/activity-import] is missing from the embedded files. It
    answers the checked activities or rejects, and stores nothing. *)
Definition checkActivitiesImport (account_id : string)
    (activities : list ActivityImport) : M (list ActivityImport) :=
  _ <- emit (CheckActivitiesImport account_id activities) ;;
  match checkOutcome account_id activities with
  | inr checked => ret checked
  | inl e => throw e
  end.

(** *** The hook [useActivityImportMutations] *)

Section UseActivityImportMutations.

Variable onSuccess : option (list ActivityImport -> M unit).
Variable onError : option (string -> M unit).

(** [mutationFn] of [saveAndCheckImportMutation]. *)
Definition mutationFn (data : ImportMappingData)
    (activitiesToImport : list ActivityImport) : M (list ActivityImport) :=
  _ <- saveAccountImportMapping data ;;
  checkActivitiesImport (accountId data) activitiesToImport.

(** [onSuccess] of [saveAndCheckImportMutation]. *)
Definition mutationOnSuccess (checked : list ActivityImport) : M unit :=
  _ <- emit InvalidateImportMapping ;;
  callOptional onSuccess checked.

(** [onError] of [saveAndCheckImportMutation]. *)
Definition mutationOnError (error : JsError) : M unit :=
  let message := "Import failed: " ++ toStringCell (errorMessage error) in
  _ <- callOptional onError message ;;
  emit (ToastDestructive "Error importing activities" (errorMessage error)).

(** [saveAndCheckImportMutation.mutateAsync]: [useMutation] runs
    [mutationFn] once (no [retry] option is given), then [onSuccess] with
    the result, or [onError] with the rejection, which it passes on. *)
Definition saveAndCheckImportMutation (data : ImportMappingData)
    (activitiesToImport : list ActivityImport) : M (list ActivityImport) :=
  tryCatch
    (checked <- mutationFn data activitiesToImport ;;
     _ <- mutationOnSuccess checked ;;
     ret checked)
    (fun error => _ <- mutationOnError error ;; throw error).

End UseActivityImportMutations.

(** *** [handleImport] *)

Section HandleImport.

Variable headers : list string.
Variable mapping : ImportMappingData.
Variable accounts : option (list Account).
Variable isCashActivity : ActivityTypeName -> bool.

(** The parsed file, header row first. *)
Variable csvData : list (list string).

(** [validateActivities] is imported from [./utils/csvValidation], which
    is missing from the embedded files: the validator is a parameter. *)
Variable validateActivities : list ActivityImport -> ValidationErrors.

(** [csvData.slice(1).map((row) => ...)] *)
Definition activitiesToImport : result (list ActivityImport) :=
  mapR (transformRow headers mapping accounts isCashActivity) (skipn 1 csvData).

Definition handleImport : M unit :=
  tryCatch
    (activities <- liftR activitiesToImport ;;
     let validationErrors := validateActivities activities in
     if (0 <? size validationErrors)%nat then
       emit (SetValidationErrors validationErrors)
     else
       _ <- saveAndCheckImportMutation
              (Some propsOnSuccess)
              (Some (fun error => propsOnError ("Import failed: " ++ error)))
              mapping activities ;;
       ret tt)
    (fun error => propsOnError ("Import failed: " ++ toStringError error)).

(** [handleImport] with the props [onSuccess] and [onError] of the form as
    any callbacks, which may throw; [handleImport] above is the case of the
    two callbacks that record their call. *)
Definition handleImportWith (onSuccess : list ActivityImport -> M unit)
    (onError : string -> M unit) : M unit :=
  tryCatch
    (activities <- liftR activitiesToImport ;;
     let validationErrors := validateActivities activities in
     if (0 <? size validationErrors)%nat then
       emit (SetValidationErrors validationErrors)
     else
       _ <- saveAndCheckImportMutation
              (Some onSuccess)
              (Some (fun error => onError ("Import failed: " ++ error)))
              mapping activities ;;
       ret tt)
    (fun error => onError ("Import failed: " ++ toStringError error)).

End HandleImport.

End Backend.


(** ** Concrete data for the scenarios *)

Module Examples.

(** The header row of scenario A. *)
Definition headers : list string :=
  ["Trade Date"; "Ticker"; "Side"; "Qty"; "Price"; "Fee"].

(** Date, Symbol, ActivityType, Quantity, UnitPrice and Fee are mapped;
    Currency and Amount are not. *)
Definition fields (field : ImportFormat) : option string :=
  match field with
  | Date => Some "Trade Date"
  | Symbol => Some "Ticker"
  | ActivityType => Some "Side"
  | Quantity => Some "Qty"
  | UnitPrice => Some "Price"
  | Fee => Some "Fee"
  | Currency | Amount => None
  end.

Definition mapping : ImportMappingData := {|
  accountId := "acc-1";
  fieldMappings := fields;
  activityMappings := [("BUY", Some ["buy"]); ("DIVIDEND", Some ["div"; "cash div"])];
  symbolMappings := {["APPL" := "AAPL"]}
|}.

Definition accounts : option (list Account) :=
  Some [{| account_id := "acc-1"; account_name := "Broker";
           account_currency := "USD" |}].

(** Modelled from the spec: a classifier for the examples, the one of
    [./utils/csvValidation] being missing from the embedded files;
    cash-style types are deposits, withdrawals, dividends, interest, fees
    and transfers, position-style types are buy and sell. *)
Definition isCashActivity (activityType : ActivityTypeName) : bool :=
  existsb (String.eqb activityType)
    ["DEPOSIT"; "WITHDRAWAL"; "DIVIDEND"; "INTEREST"; "FEE";
     "TRANSFER_IN"; "TRANSFER_OUT"].

Definition transform : list string -> result ActivityImport :=
  transformRow headers mapping accounts isCashActivity.

(** Scenario A: a purchase of ten shares. *)
Definition buyRow : list string :=
  ["2024-01-05"; " APPL "; "Buy - Market"; "10"; "150.00"; "1.00"].

(** An activity type no pattern matches. *)
Definition unmappedRow : list string :=
  ["2024-01-05"; "AAPL"; " split "; "10"; "150.00"; "1.00"].

(** Cash rows without an Amount column. *)
Definition dividendRow : list string :=
  ["2024-02-01"; "AAPL"; "DIV"; "2"; "0.25"; ""].

Definition zeroQuantityRow : list string :=
  ["2024-02-01"; "AAPL"; "DIV"; "0"; "5"; ""].

Definition infiniteQuantityRow : list string :=
  ["2024-02-01"; "AAPL"; "DIV"; "Infinity"; "0"; ""].

(** A row cut short after the date. *)
Definition shortRow : list string := ["2024-02-01"].

(** A file whose header row has an Amount column, and its mapping. *)
Definition headersWithAmount : list string :=
  ["Trade Date"; "Ticker"; "Side"; "Qty"; "Price"; "Fee"; "Total"].

Definition fieldsWithAmount (field : ImportFormat) : option string :=
  match field with
  | Amount => Some "Total"
  | other => fields other
  end.

Definition mappingWithAmount : ImportMappingData := {|
  accountId := "acc-1";
  fieldMappings := fieldsWithAmount;
  activityMappings := activityMappings mapping;
  symbolMappings := symbolMappings mapping
|}.

Definition transformWithAmount : list string -> result ActivityImport :=
  transformRow headersWithAmount mappingWithAmount accounts isCashActivity.

Definition zeroAmountDividendRow : list string :=
  ["2024-02-01"; "AAPL"; "DIV"; "2"; "0.25"; ""; "0.00"].

Definition zeroAmountBuyRow : list string :=
  ["2024-01-05"; "AAPL"; "BUY"; "10"; "150.00"; "1.00"; "0"].

Definition amountDividendRow : list string :=
  ["2024-02-01"; "AAPL"; "DIV"; ""; ""; ""; "500.00"].

(** A header row with a column without a name, as a trailing delimiter
    leaves one. *)
Definition headersWithBlank : list string :=
  ["Trade Date"; "Ticker"; "Side"; "Qty"; "Price"; "Fee"; ""].

Definition blankColumnRow : list string :=
  ["2024-01-05"; "AAPL"; "BUY"; "10"; "150.00"; "1.00"; "n/a"].


(** The records the example rows transform to. *)
Definition num (text : string) : number := parseFloatString text.

Definition exampleRecord (date symbol : string) (activityType : ActivityTypeName)
    (quantity unitPrice fee : number) (amount : option number) : ActivityImport := {|
  act_date := Str date;
  act_assetId := symbol;
  act_symbol := symbol;
  act_activityType := activityType;
  act_quantity := quantity;
  act_unitPrice := unitPrice;
  act_currency := Str "USD";
  act_fee := fee;
  act_amount := amount;
  act_accountId := "acc-1";
  act_isValid := false;
  act_isDraft := true;
  act_comment := ""
|}.

Definition buyRecord : ActivityImport :=
  exampleRecord "2024-01-05" "AAPL" "BUY" (num "10") (num "150") (num "1") None.

Definition dividendRecord : ActivityImport :=
  exampleRecord "2024-02-01" "AAPL" "DIVIDEND" (num "1") (num "0.5") (num "0")
    (Some (num "0.5")).

Definition zeroQuantityRecord : ActivityImport :=
  exampleRecord "2024-02-01" "AAPL" "DIVIDEND" (num "1") (num "5") (num "0")
    (Some (num "5")).

Definition infiniteQuantityRecord : ActivityImport :=
  exampleRecord "2024-02-01" "AAPL" "DIVIDEND" (num "1") (num "0") (num "0")
    (Some NaN).


Definition undatedRecord : ActivityImport :=
  exampleRecord "" "AAPL" "BUY" (num "10") (num "150") (num "1") None.

(** A validator that reports the rows without a date. *)
Definition validateDates (activities : list ActivityImport) : ValidationErrors :=
  if forallb (fun a => truthyCell (act_date a)) activities then ∅
  else {["0" := ["date missing"]]}.

Definition undatedRow : list string :=
  [""; "AAPL"; "BUY"; "10"; "150.00"; "1.00"].

Definition undatedFile : list (list string) := [headers; undatedRow].

Definition emptyWorld : World := {| persisted := ∅; trace := [] |}.

(** Backends: one that accepts everything, one that refuses to save, one
    whose check rejects. *)
Definition saveOk (data : ImportMappingData) : option JsError := None.
Definition saveFails (data : ImportMappingData) : option JsError :=
  Some (ErrorObj "Error" "database is locked").
Definition checkOk (account_id : string) (activities : list ActivityImport)
    : JsError + list ActivityImport := inr activities.
Definition checkFails (account_id : string) (activities : list ActivityImport)
    : JsError + list ActivityImport := inl (ErrorStr "duplicate activity").

(** A header row that repeats the name of the Symbol column, and a row with
    different cells under the two. *)
Definition headersRepeated : list string :=
  ["Trade Date"; "Ticker"; "Side"; "Qty"; "Price"; "Fee"; "Ticker"].

Definition repeatedRow : list string :=
  ["2024-01-05"; "AAPL"; "BUY"; "10"; "150.00"; "1.00"; "MSFT"].

(** An activity mapping with a blank pattern in its second entry. *)
Definition mappingWithBlankPattern : ImportMappingData := {|
  accountId := "acc-1";
  fieldMappings := fields;
  activityMappings :=
    [("BUY", Some ["buy"]); ("FEE", Some ["fee"; "  "]); ("DIVIDEND", Some ["div"])];
  symbolMappings := symbolMappings mapping
|}.

(** A symbol dictionary with a key that has white space around it. *)
Definition mappingWithPaddedKey : ImportMappingData := {|
  accountId := "acc-1";
  fieldMappings := fields;
  activityMappings := activityMappings mapping;
  symbolMappings := {[" AAPL " := "MSFT"]}
|}.

(** Files: two data rows; a data row cut short; no data row. *)
Definition twoRowFile : list (list string) := [headers; buyRow; dividendRow].
Definition shortFile : list (list string) := [headers; buyRow; shortRow].
Definition headerOnlyFile : list (list string) := [headers].

End Examples.


(** ** The specification's vocabulary *)

(** [p] is a prefix of [s]. *)
Definition isPrefixOf (p s : string) : Prop := exists rest, s = p ++ rest.

(** The matcher's normal form of a string: trimmed, then upper-cased. *)
Definition normalized (s : string) : string := toUpperCase (trim s).

(** A configured pattern matches a raw activity type when the normalized
    raw type starts with the normalized pattern. *)
Definition patternMatches (rawType pattern : string) : Prop :=
  isPrefixOf (normalized pattern) (normalized rawType).

(** An entry of the activity mapping has a pattern that matches. *)
Definition entryMatches (rawType : string)
    (entry : ActivityTypeName * option (list string)) : Prop :=
  exists patterns pattern,
    snd entry = Some patterns /\ In pattern patterns /\
    patternMatches rawType pattern.

(** The calls that reach the backend. *)
Definition isBackendCall (ev : Event) : bool :=
  match ev with
  | SaveAccountImportMapping _ | CheckActivitiesImport _ _ => true
  | _ => false
  end.

(** What the caller's error callback and the toast receive for a rejection
    of the mutation. *)
Definition failureReport (error : JsError) : list Event :=
  [CallOnError ("Import failed: " ++ toStringCell (errorMessage error));
   ToastDestructive "Error importing activities" (errorMessage error)].

(** A numeric field parsed with a default that replaces a parse failure
    only: [parseFloat] answers NaN exactly when no number can be read. *)
Definition parsedOrDefault (v : cell) (default : number) : number :=
  if isNaN (parseFloat v) then default else parseFloat v.

(** The amount of a cash-style row in the words of the specification: the
    value parsed from the Amount cell when there is one, and otherwise
    quantity times unit price, each with its default on parse failure. *)
Definition claimedCashAmount (headers : list string) (mapping : ImportMappingData)
    (row : list string) : number :=
  if truthyCell (getMappedValue headers mapping row Amount) then
    parseFloat (getMappedValue headers mapping row Amount)
  else
    mul (parsedOrDefault (getMappedValue headers mapping row Quantity) one)
        (parsedOrDefault (getMappedValue headers mapping row UnitPrice) zero).

(** No prefix of the text, leading white space apart, reads as a number. *)
Definition unparsable (v : cell) : Prop :=
  scanDecimalLiteral (trimStart (toStringCell v)) = None.

(** The mapping with another symbol dictionary. *)
Definition withSymbolMappings (mapping : ImportMappingData)
    (symbols : gmap string string) : ImportMappingData := {|
  accountId := accountId mapping;
  fieldMappings := fieldMappings mapping;
  activityMappings := activityMappings mapping;
  symbolMappings := symbols
|}.

(** ** What the form renders *)

Section Views.

(** The selected file, [File | null]; what a [File] is does not matter. *)
Variable File : Type.

(** What [PreviewContent] returns: one of two hints, the error viewer with
    its [parsingError] flag, or the mapping table. *)
Inductive PreviewView : Type :=
| SelectAccountHint
| SelectFileHint
| ErrorViewer (parsingError : bool)
| ImportMappingTable.

(** Truthiness of [error : string | null]. *)
Definition truthyError (error : option string) : bool :=
  match error with
  | Some message => truthyCell (Str message)
  | None => false
  end.

Definition PreviewContent (accountId : string) (selectedFile : option File)
    (isValidCsv : bool) (error : option string)
    (validationErrors : ValidationErrors) : PreviewView :=
  if negb (truthyCell (Str accountId)) then SelectAccountHint
  else
    match selectedFile with
    | None => SelectFileHint
    | Some _ =>
        if (negb isValidCsv || truthyError error
            || (0 <? size validationErrors)%nat)%bool
        then ErrorViewer (truthyError error)
        else ImportMappingTable
    end.

(** The row of actions under the preview: the Cancel link, the Import
    button (disabled, with a spinner, while the mutation is pending), the
    notice that the mapping is incomplete. *)
Inductive FooterElement : Type :=
| CancelLink
| ImportButton (disabled : bool)
| IncompleteMappingNotice.

(** [mapping.accountId && selectedFile], as a condition. *)
Definition accountAndFile (accountId : string) (selectedFile : option File) : bool :=
  truthyCell (Str accountId) &&
  match selectedFile with
  | Some _ => true
  | None => false
  end.

(** The last [div] of the form; [isMapComplete] is the answer of
    [isMapComplete()], [isPending] that of the mutation. *)
Definition footer (accountId : string) (selectedFile : option File)
    (isMapComplete isPending : bool) : list FooterElement :=
  ([CancelLink]
   ++ (if accountAndFile accountId selectedFile && isMapComplete
       then [ImportButton isPending] else [])
   ++ (if accountAndFile accountId selectedFile && negb isMapComplete
       then [IncompleteMappingNotice] else []))%list.

End Views.

Arguments PreviewContent {File} accountId selectedFile isValidCsv error validationErrors.
Arguments accountAndFile {File} accountId selectedFile.
Arguments footer {File} accountId selectedFile isMapComplete isPending.

(** A string with nothing to trim at its head. *)
Definition startsClean (s : string) : Prop :=
  match s with
  | EmptyString => True
  | String c _ => isWhiteSpace c = false
  end.

(** * Properties *)

(** ** JavaScript primitives *)

Lemma indexOfFrom_absent (l : list string) (x : string) (i : Z) :
  ~ In x l -> indexOfFrom l x i = (-1)%Z.
Proof.
  revert i. induction l as [|h t IH]; intros i Hnot; simpl.
  - reflexivity.
  - destruct (String.eqb_spec h x) as [Heq|Hne].
    + exfalso. apply Hnot. left. exact Heq.
    + apply IH. intros Hin. apply Hnot. right. exact Hin.
Qed.

Lemma indexOfFrom_found (l : list string) (x : string) (i : Z) :
  indexOfFrom l x i <> (-1)%Z -> (0 <= i)%Z ->
  (i <= indexOfFrom l x i < i + Z.of_nat (List.length l))%Z /\
  nth_error l (Z.to_nat (indexOfFrom l x i - i)) = Some x.
Proof.
  revert i. induction l as [|h t IH]; intros i Hfound Hi; simpl in *.
  - congruence.
  - destruct (String.eqb_spec h x) as [Heq|Hne].
    + subst h. split; [lia|]. replace (i - i)%Z with 0%Z by lia. reflexivity.
    + destruct (IH (i + 1)%Z Hfound ltac:(lia)) as [Hrange Hnth].
      split; [lia|].
      replace (indexOfFrom t x (i + 1) - i)%Z
        with (Z.succ (indexOfFrom t x (i + 1) - (i + 1)))%Z by lia.
      rewrite Z2Nat.inj_succ by lia. exact Hnth.
Qed.

Lemma indexOf_absent (l : list string) (x : string) :
  ~ In x l -> indexOf l x = (-1)%Z.
Proof. apply indexOfFrom_absent. Qed.

Lemma indexOfFrom_present (l : list string) (x : string) (i : Z) :
  In x l -> (0 <= i)%Z -> indexOfFrom l x i <> (-1)%Z.
Proof.
  revert i. induction l as [|h t IH]; intros i Hin Hi; [destruct Hin|].
  simpl. destruct (String.eqb_spec h x) as [Heq|Hne]; [lia|].
  destruct Hin as [Hh|Ht]; [congruence|]. apply IH; [exact Ht|lia].
Qed.

Lemma indexOf_present (l : list string) (x : string) :
  In x l -> (0 <= indexOf l x < Z.of_nat (List.length l))%Z.
Proof.
  intros Hin. unfold indexOf.
  pose proof (indexOfFrom_present l x 0 Hin ltac:(lia)) as Hfound.
  destruct (indexOfFrom_found l x 0 Hfound ltac:(lia)) as [Hrange _]. lia.
Qed.

Lemma at_index_past_end (row : list string) (i : Z) :
  (Z.of_nat (List.length row) <= i)%Z -> at_index row i = Undefined.
Proof.
  intros Hlen. unfold at_index.
  destruct (Z.ltb_spec i 0) as [_|Hi]; [reflexivity|].
  assert (Hnone : nth_error row (Z.to_nat i) = None)
    by (apply nth_error_None; lia).
  rewrite Hnone. reflexivity.
Qed.

Lemma at_index_within (row : list string) (i : Z) :
  (0 <= i < Z.of_nat (List.length row))%Z -> exists s, at_index row i = Str s.
Proof.
  intros [Hlo Hhi]. unfold at_index.
  destruct (Z.ltb_spec i 0) as [Hneg|_]; [lia|].
  destruct (nth_error row (Z.to_nat i)) as [s|] eqn:Hnth.
  - exists s. reflexivity.
  - apply nth_error_None in Hnth. lia.
Qed.

Lemma startsWith_spec (s p : string) :
  startsWith s p = true <-> exists rest, s = p ++ rest.
Proof.
  unfold startsWith. revert s. induction p as [|c p IH]; intros s.
  - simpl. destruct s; split; eauto.
  - destruct s as [|d s]; simpl.
    + split; [discriminate|]. intros [rest Hrest]. discriminate.
    + destruct (ascii_dec c d) as [->|Hne].
      * split.
        -- intros Hprefix. apply IH in Hprefix. destruct Hprefix as [rest ->].
           exists rest. reflexivity.
        -- intros [rest Hrest]. apply IH. exists rest.
           injection Hrest as Hrest. exact Hrest.
      * split; [discriminate|]. intros [rest Hrest].
        injection Hrest as Hc _. congruence.
Qed.

Lemma truthyN_cases (x : number) :
  truthyN x = false -> x = NaN \/ exists s, x = S754_zero s.
Proof. destruct x; simpl; intros H; try discriminate; eauto. Qed.

(** [parseFloat] on the shapes of text a CSV cell takes. *)
Example parseFloat_decimal :
  parseFloat (Str "150.00") = S754_finite false 5277655813324800 (-45).
Proof. vm_compute. reflexivity. Qed.

Example parseFloat_rounds_to_nearest :
  parseFloat (Str "0.1") = S754_finite false 7205759403792794 (-56).
Proof. vm_compute. reflexivity. Qed.

Example parseFloat_reads_a_prefix :
  parseFloat (Str "  12.5 USD") = parseFloat (Str "12.5") /\
  parseFloat (Str "1e") = one /\
  parseFloat (Str "-0") = S754_zero true /\
  parseFloat (Str "Infinity") = S754_infinity false /\
  parseFloat (Str "1e400") = S754_infinity false.
Proof. repeat split; vm_compute; reflexivity. Qed.

Example parseFloat_failure :
  parseFloat (Str "") = NaN /\ parseFloat (Str "n/a") = NaN /\
  parseFloat (Str ".") = NaN /\ parseFloat Undefined = NaN.
Proof. repeat split; vm_compute; reflexivity. Qed.

(** ** The field resolver *)

Section FieldResolver.

Variable headers : list string.
Variable mapping : ImportMappingData.

(** The resolver answers the empty string when the header it looks for,
    the configured one or the empty string for an unmapped field, is not in
    the header list. *)
Lemma getMappedValue_header_absent (row : list string) (field : ImportFormat) :
  ~ In (mappedHeader mapping field) headers ->
  getMappedValue headers mapping row field = Str "".
Proof.
  intros Habsent. unfold getMappedValue.
  rewrite (indexOf_absent _ _ Habsent). reflexivity.
Qed.

(** A row that reaches every header resolves every field to a string. *)
Lemma getMappedValue_full_row (row : list string) (field : ImportFormat) :
  (List.length headers <= List.length row)%nat ->
  exists s, getMappedValue headers mapping row field = Str s.
Proof.
  intros Hlen. unfold getMappedValue.
  destruct (Z.eqb_spec (indexOf headers (mappedHeader mapping field)) (-1))
    as [_|Hfound].
  - exists "". reflexivity.
  - apply at_index_within.
    destruct (in_dec string_dec (mappedHeader mapping field) headers) as [Hin|Hout].
    + pose proof (indexOf_present _ _ Hin). lia.
    + rewrite (indexOf_absent _ _ Hout) in Hfound. congruence.
Qed.

End FieldResolver.

(** C7, at the input where the code departs from it: the header row has a
    column without a name, the Amount field has no configured header, and
    the resolver answers that column's cell where the claim promises the
    empty string. *)
Theorem getMappedValue_unmapped_field_reads_unnamed_column :
  fieldMappings Examples.mapping Amount = None /\
  getMappedValue Examples.headersWithBlank Examples.mapping
    Examples.blankColumnRow Amount = Str "n/a" /\
  getMappedValue Examples.headersWithBlank Examples.mapping
    Examples.blankColumnRow Amount <> Str "".
Proof.
  split; [reflexivity|]. split; [reflexivity|]. discriminate.
Qed.

(** C10: when the header configured for a field is in the header list and
    the row has no cell at its index (as few cells as the index, or fewer),
    the resolver answers [undefined], which is not the empty string; for the
    Symbol field the transformation of the row then throws, under every
    account list and classifier. *)
Theorem getMappedValue_short_row_is_undefined
    (headers : list string) (mapping : ImportMappingData)
    (row : list string) (field : ImportFormat) (header : string) :
  fieldMappings mapping field = Some header ->
  In header headers ->
  (Z.of_nat (List.length row) <= indexOf headers header)%Z ->
  getMappedValue headers mapping row field = Undefined /\
  getMappedValue headers mapping row field <> Str "" /\
  (field = Symbol ->
   forall accounts isCashActivity,
     exists e, transformRow headers mapping accounts isCashActivity row = Throw e).
Proof.
  intros Hmapped Hpresent Hshort.
  assert (Hundef : getMappedValue headers mapping row field = Undefined).
  { unfold getMappedValue, mappedHeader. rewrite Hmapped.
    pose proof (indexOf_present _ _ Hpresent) as Hrange.
    destruct (Z.eqb_spec (indexOf headers header) (-1)) as [Hminus|_]; [lia|].
    apply at_index_past_end. exact Hshort. }
  split; [exact Hundef|]. split; [rewrite Hundef; discriminate|].
  intros -> accounts isCashActivity. unfold transformRow.
  destruct (getMappedActivityType headers mapping row) as [activityType|e]; simpl.
  - destruct (deriveAmounts headers mapping (isCashActivity activityType) row)
      as [[amount quantity] unitPrice].
    rewrite Hundef. simpl. eauto.
  - eauto.
Qed.

Lemma getMappedValue_short_row_is_undefined_witness :
  getMappedValue Examples.headers Examples.mapping [] Symbol = Undefined /\
  getMappedValue Examples.headers Examples.mapping [] Symbol <> Str "" /\
  (Symbol = Symbol ->
   forall accounts isCashActivity,
     exists e,
       transformRow Examples.headers Examples.mapping accounts isCashActivity []
       = Throw e).
Proof.
  apply (getMappedValue_short_row_is_undefined
           Examples.headers Examples.mapping [] Symbol "Ticker").
  - reflexivity.
  - simpl. tauto.
  - vm_compute. discriminate.
Defined.

(** ** The type matcher *)

Section TypeMatcher.

Variable headers : list string.
Variable mapping : ImportMappingData.

Lemma matchesMappedType_iff (rawType pattern : string) :
  matchesMappedType (normalized rawType) pattern = true <->
  patternMatches rawType pattern.
Proof. unfold matchesMappedType. apply startsWith_spec. Qed.

Lemma someMatches_iff (rawType : string)
    (entry : ActivityTypeName * option (list string)) :
  someMatches (normalized rawType) (snd entry) = true <-> entryMatches rawType entry.
Proof.
  unfold entryMatches. destruct entry as [appType [patterns|]]; simpl.
  - rewrite existsb_exists. split.
    + intros [pattern [Hin Hmatch]]. exists patterns, pattern.
      split; [reflexivity|]. split; [exact Hin|].
      apply matchesMappedType_iff. exact Hmatch.
    + intros [patterns' [pattern [Heq [Hin Hmatch]]]].
      injection Heq as <-. exists pattern. split; [exact Hin|].
      apply matchesMappedType_iff. exact Hmatch.
  - split; [discriminate|]. intros [patterns [pattern [Heq _]]]. discriminate.
Qed.

Lemma someMatches_false (rawType : string)
    (entry : ActivityTypeName * option (list string)) :
  ~ entryMatches rawType entry -> someMatches (normalized rawType) (snd entry) = false.
Proof.
  intros Hno. destruct (someMatches (normalized rawType) (snd entry)) eqn:Hsome.
  - exfalso. apply Hno. apply someMatches_iff. exact Hsome.
  - reflexivity.
Qed.

(** The loop passes over the entries without a matching pattern. *)
Lemma firstMappedType_skip (rawType : string)
    (before rest : list (ActivityTypeName * option (list string))) :
  (forall entry, In entry before -> ~ entryMatches rawType entry) ->
  firstMappedType (normalized rawType) (before ++ rest)
  = firstMappedType (normalized rawType) rest.
Proof.
  induction before as [|[appType csvTypes] before IH]; intros Hnone; simpl.
  - reflexivity.
  - assert (Hfalse : someMatches (normalized rawType) csvTypes = false).
    { apply (someMatches_false rawType (appType, csvTypes)).
      apply Hnone. left. reflexivity. }
    rewrite Hfalse. apply IH. intros entry Hin. apply Hnone. right. exact Hin.
Qed.

Lemma getMappedActivityType_of_string (row : list string) (rawType : string) :
  getMappedValue headers mapping row ActivityType = Str rawType ->
  getMappedActivityType headers mapping row = Ok (matchActivityType mapping rawType).
Proof. intros Hcell. unfold getMappedActivityType. rewrite Hcell. reflexivity. Qed.

(** C3: the matcher compares the trimmed, upper-cased raw type with each
    trimmed, upper-cased pattern by prefix, and answers the first internal
    type, in the order of the mapping's entries, one of whose patterns
    matches. *)
Theorem getMappedActivityType_first_match
    (row : list string) (rawType : string)
    (before after : list (ActivityTypeName * option (list string)))
    (appType : ActivityTypeName) (patterns : option (list string)) :
  getMappedValue headers mapping row ActivityType = Str rawType ->
  activityMappings mapping = (before ++ (appType, patterns) :: after)%list ->
  entryMatches rawType (appType, patterns) ->
  (forall entry, In entry before -> ~ entryMatches rawType entry) ->
  getMappedActivityType headers mapping row = Ok appType.
Proof.
  intros Hcell Hsplit Hmatch Hfirst.
  rewrite (getMappedActivityType_of_string _ _ Hcell).
  unfold matchActivityType. fold (normalized rawType).
  rewrite Hsplit, (firstMappedType_skip _ _ _ Hfirst). simpl.
  apply someMatches_iff in Hmatch. simpl in Hmatch. rewrite Hmatch. reflexivity.
Qed.

(** C1, amended: when no configured pattern matches the trimmed,
    upper-cased raw type, the matcher answers the raw value as it stands in
    the cell, neither trimmed nor upper-cased. *)
Theorem getMappedActivityType_fallback_is_raw_value
    (row : list string) (rawType : string) :
  getMappedValue headers mapping row ActivityType = Str rawType ->
  (forall entry, In entry (activityMappings mapping) -> ~ entryMatches rawType entry) ->
  getMappedActivityType headers mapping row = Ok rawType.
Proof.
  intros Hcell Hnone.
  rewrite (getMappedActivityType_of_string _ _ Hcell).
  unfold matchActivityType. fold (normalized rawType).
  rewrite <- (app_nil_r (activityMappings mapping)).
  rewrite (firstMappedType_skip _ _ _ Hnone). reflexivity.
Qed.

End TypeMatcher.

(** No pattern of the example mapping matches the raw type [" split "]. *)
Lemma split_matches_no_pattern :
  forall entry,
    In entry (activityMappings Examples.mapping) -> ~ entryMatches " split " entry.
Proof.
  intros entry Hin Hmatch. apply someMatches_iff in Hmatch.
  simpl in Hin. destruct Hin as [<-|[<-|[]]]; vm_compute in Hmatch; discriminate.
Qed.

Lemma getMappedActivityType_first_match_witness :
  getMappedActivityType Examples.headers Examples.mapping Examples.dividendRow
  = Ok "DIVIDEND".
Proof.
  apply (getMappedActivityType_first_match
           Examples.headers Examples.mapping Examples.dividendRow "DIV"
           [("BUY", Some ["buy"])] [] "DIVIDEND" (Some ["div"; "cash div"])).
  - reflexivity.
  - reflexivity.
  - exists ["div"; "cash div"], "div". split; [reflexivity|].
    split; [left; reflexivity|]. exists "". reflexivity.
  - intros entry Hin Hmatch. apply someMatches_iff in Hmatch.
    destruct Hin as [<-|[]]. vm_compute in Hmatch. discriminate.
Defined.

(** C1, as stated, fails: no pattern matches [" split "], and the matcher
    answers [" split "], not its trimmed, upper-cased form ["SPLIT"]. *)
Lemma getMappedActivityType_fallback_not_normalized :
  (forall entry,
     In entry (activityMappings Examples.mapping) -> ~ entryMatches " split " entry) /\
  getMappedValue Examples.headers Examples.mapping Examples.unmappedRow ActivityType
  = Str " split " /\
  normalized " split " = "SPLIT" /\
  getMappedActivityType Examples.headers Examples.mapping Examples.unmappedRow
  = Ok " split " /\
  getMappedActivityType Examples.headers Examples.mapping Examples.unmappedRow
  <> Ok (normalized " split ").
Proof.
  split; [exact split_matches_no_pattern|].
  split; [reflexivity|]. split; [reflexivity|]. split; [reflexivity|].
  vm_compute. discriminate.
Qed.

Lemma getMappedActivityType_fallback_is_raw_value_witness :
  getMappedActivityType Examples.headers Examples.mapping Examples.unmappedRow
  = Ok " split ".
Proof.
  apply (getMappedActivityType_fallback_is_raw_value
           Examples.headers Examples.mapping Examples.unmappedRow " split ").
  - reflexivity.
  - exact split_matches_no_pattern.
Defined.

(** ** The row transformer *)

Lemma eqN_refl (x : number) : isNaN x = false -> eqN x x = true.
Proof.
  destruct x as [s|s| |s m e]; simpl; intros Hnan; try discriminate.
  - reflexivity.
  - unfold eqN, SFeqb. simpl. destruct s; reflexivity.
  - unfold eqN, SFeqb. simpl.
    destruct s; rewrite Z.compare_refl, Pos.compare_cont_refl; reflexivity.
Qed.

(** [x || 0] compares equal to [x], unless [x] is NaN, and then it is [0]. *)
Lemma orN_zero_eq (x : number) :
  (isNaN x = false -> eqN (orN x zero) x = true) /\
  (isNaN x = true -> orN x zero = zero).
Proof.
  split.
  - intros Hnan. unfold orN. destruct (truthyN x) eqn:Htruthy.
    + apply eqN_refl. exact Hnan.
    + destruct (truthyN_cases x Htruthy) as [->|[s ->]]; [discriminate|].
      reflexivity.
  - destruct x; simpl; intros Hnan; try discriminate. reflexivity.
Qed.

Section RowTransformerProperties.

Variable headers : list string.
Variable mapping : ImportMappingData.
Variable accounts : option (list Account).
Variable isCashActivity : ActivityTypeName -> bool.

Local Abbreviation resolve := (getMappedValue headers mapping).
Local Abbreviation transform := (transformRow headers mapping accounts isCashActivity).

(** What a successful transformation says about the row and its record. *)
Lemma transformRow_Ok_inv (row : list string) (rec : ActivityImport) :
  transform row = Ok rec ->
  exists rawType rawSymbol,
    resolve row ActivityType = Str rawType /\
    resolve row Symbol = Str rawSymbol /\
    act_activityType rec = matchActivityType mapping rawType /\
    (act_amount rec, act_quantity rec, act_unitPrice rec)
    = deriveAmounts headers mapping (isCashActivity (act_activityType rec)) row /\
    act_symbol rec = mappedSymbol mapping (trim rawSymbol) /\
    act_assetId rec = mappedSymbol mapping (trim rawSymbol).
Proof.
  unfold transformRow, getMappedActivityType.
  destruct (resolve row ActivityType) as [|rawType] eqn:Htype; simpl;
    [discriminate|].
  destruct (deriveAmounts headers mapping
              (isCashActivity (matchActivityType mapping rawType)) row)
    as [[amount quantity] unitPrice] eqn:Hderive.
  destruct (resolve row Symbol) as [|rawSymbol] eqn:Hsymbol; simpl;
    [discriminate|].
  intros Hrec. injection Hrec as <-. simpl.
  exists rawType, rawSymbol. rewrite Hderive. repeat split; reflexivity.
Qed.

(** The transformation succeeds as soon as the ActivityType and Symbol
    fields resolve to strings. *)
Lemma transformRow_total (row : list string) (rawType rawSymbol : string) :
  resolve row ActivityType = Str rawType ->
  resolve row Symbol = Str rawSymbol ->
  exists rec, transform row = Ok rec.
Proof.
  intros Htype Hsymbol. unfold transformRow, getMappedActivityType.
  rewrite Htype. simpl.
  destruct (deriveAmounts headers mapping
              (isCashActivity (matchActivityType mapping rawType)) row)
    as [[amount quantity] unitPrice].
  rewrite Hsymbol. simpl. eauto.
Qed.

(** In particular it succeeds on every row with a cell under each header. *)
Lemma transformRow_full_row (row : list string) :
  (List.length headers <= List.length row)%nat ->
  exists rec, transform row = Ok rec.
Proof.
  intros Hlen.
  destruct (getMappedValue_full_row headers mapping row ActivityType Hlen)
    as [rawType Htype].
  destruct (getMappedValue_full_row headers mapping row Symbol Hlen)
    as [rawSymbol Hsymbol].
  exact (transformRow_total row rawType rawSymbol Htype Hsymbol).
Qed.

(** C6: for a row whose matched type is position-style, quantity and unit
    price of the record are the values [parseFloat] reads from the mapped
    fields, with no default: a field that does not read as a number gives
    NaN in the record. *)
Theorem transformRow_position_style_parses_directly
    (row : list string) (rec : ActivityImport) :
  transform row = Ok rec ->
  isCashActivity (act_activityType rec) = false ->
  act_quantity rec = parseFloat (resolve row Quantity) /\
  act_unitPrice rec = parseFloat (resolve row UnitPrice) /\
  (unparsable (resolve row Quantity) -> act_quantity rec = NaN) /\
  (unparsable (resolve row UnitPrice) -> act_unitPrice rec = NaN).
Proof.
  intros Hrec Hposition.
  destruct (transformRow_Ok_inv row rec Hrec)
    as [rawType [rawSymbol [_ [_ [_ [Hderive _]]]]]].
  rewrite Hposition in Hderive. unfold deriveAmounts in Hderive.
  injection Hderive as _ Hquantity HunitPrice.
  split; [exact Hquantity|]. split; [exact HunitPrice|].
  unfold unparsable, parseFloat, parseFloatString in *.
  split; intros Hfail.
  - rewrite Hquantity, Hfail. reflexivity.
  - rewrite HunitPrice, Hfail. reflexivity.
Qed.

(** C2, amended: for a row whose matched type is cash-style the record has
    quantity 1; its amount is the number read from the Amount field when
    that cell is not empty and the number is neither NaN nor zero, and
    otherwise quantity times unit price, where the quantity read from the
    Quantity field gives way to 1, and the unit price read from the
    UnitPrice field to 0, when it is NaN or zero; and its unit price equals
    the amount, except that it is 0 when the amount is NaN. *)
Theorem transformRow_cash_style_one_unit_at_amount
    (row : list string) (rec : ActivityImport) :
  transform row = Ok rec ->
  isCashActivity (act_activityType rec) = true ->
  let supplied := parseFloat (resolve row Amount) in
  let quantity := parseFloat (resolve row Quantity) in
  let unitPrice := parseFloat (resolve row UnitPrice) in
  let amount :=
    if truthyCell (resolve row Amount) && truthyN supplied then supplied
    else mul (if truthyN quantity then quantity else one)
             (if truthyN unitPrice then unitPrice else zero) in
  act_amount rec = Some amount /\
  act_quantity rec = one /\
  (isNaN amount = false -> eqN (act_unitPrice rec) amount = true) /\
  (isNaN amount = true -> act_unitPrice rec = zero).
Proof.
  intros Hrec Hcash. cbv zeta.
  destruct (transformRow_Ok_inv row rec Hrec)
    as [rawType [rawSymbol [_ [_ [_ [Hderive _]]]]]].
  rewrite Hcash in Hderive.
  unfold deriveAmounts, parsedAmount, truthyAmount in Hderive.
  revert Hderive.
  destruct (truthyCell (resolve row Amount)); simpl;
    [destruct (truthyN (parseFloat (resolve row Amount))) eqn:Hsupplied;
     simpl; rewrite ?Hsupplied; simpl|];
    intros Hderive; injection Hderive as -> -> ->;
    (split; [reflexivity|]; split; [reflexivity|]; apply orN_zero_eq).
Qed.

(** C9: when the Amount cell reads as zero the amount counts as absent; a
    cash-style record takes quantity times unit price from the Quantity and
    UnitPrice fields (1 and 0 standing in for a NaN or zero), a record that
    is not cash-style has no amount. *)
Theorem transformRow_zero_amount_is_absent
    (row : list string) (rec : ActivityImport) (rawAmount : string) :
  transform row = Ok rec ->
  resolve row Amount = Str rawAmount ->
  isZero (parseFloat (Str rawAmount)) = true ->
  let quantity := parseFloat (resolve row Quantity) in
  let unitPrice := parseFloat (resolve row UnitPrice) in
  (isCashActivity (act_activityType rec) = true ->
   act_amount rec = Some (mul (if truthyN quantity then quantity else one)
                              (if truthyN unitPrice then unitPrice else zero))) /\
  (isCashActivity (act_activityType rec) = false -> act_amount rec = None).
Proof.
  intros Hrec Hcell Hzero quantity unitPrice.
  destruct (transformRow_Ok_inv row rec Hrec)
    as [rawType [rawSymbol [_ [_ [_ [Hderive _]]]]]].
  assert (Habsent : parsedAmount headers mapping row = None).
  { unfold parsedAmount. rewrite Hcell.
    assert (Hfalsy : truthyN (parseFloat (Str rawAmount)) = false).
    { unfold truthyN. rewrite Hzero, orb_true_r. reflexivity. }
    rewrite Hfalsy. destruct (truthyCell (Str rawAmount)); reflexivity. }
  unfold deriveAmounts in Hderive. rewrite Habsent in Hderive.
  split; intros Hkind; rewrite Hkind in Hderive; simpl in Hderive;
    injection Hderive as Hamount _ _; exact Hamount.
Qed.


End RowTransformerProperties.

(** The example rows and the records they transform to. *)
Lemma buyRow_transforms :
  Examples.transform Examples.buyRow = Ok Examples.buyRecord.
Proof. vm_compute. reflexivity. Qed.

Lemma dividendRow_transforms :
  Examples.transform Examples.dividendRow = Ok Examples.dividendRecord.
Proof. vm_compute. reflexivity. Qed.

Lemma zeroQuantityRow_transforms :
  Examples.transform Examples.zeroQuantityRow = Ok Examples.zeroQuantityRecord.
Proof. vm_compute. reflexivity. Qed.

Lemma infiniteQuantityRow_transforms :
  Examples.transform Examples.infiniteQuantityRow
  = Ok Examples.infiniteQuantityRecord.
Proof. vm_compute. reflexivity. Qed.

Lemma zeroAmountDividendRow_transforms :
  Examples.transformWithAmount Examples.zeroAmountDividendRow
  = Ok Examples.dividendRecord.
Proof. vm_compute. reflexivity. Qed.


(** Scenario C: a cash row with its amount supplied, quantity and unit
    price empty. *)
Lemma amountDividendRow_transforms :
  Examples.transformWithAmount Examples.amountDividendRow
  = Ok (Examples.exampleRecord "2024-02-01" "AAPL" "DIVIDEND"
          (Examples.num "1") (Examples.num "500") (Examples.num "0")
          (Some (Examples.num "500"))).
Proof. vm_compute. reflexivity. Qed.

(** A purchase with the amount ["0"]: the record has no amount. *)
Lemma zeroAmountBuyRow_transforms :
  Examples.transformWithAmount Examples.zeroAmountBuyRow = Ok Examples.buyRecord.
Proof. vm_compute. reflexivity. Qed.

(** A row without a cell under the Symbol header does not transform. *)
Lemma shortRow_throws :
  Examples.transform Examples.shortRow = Throw (typeErrorReading "trim").
Proof. vm_compute. reflexivity. Qed.

Lemma transformRow_position_style_parses_directly_witness :
  act_quantity Examples.buyRecord
  = parseFloat (getMappedValue Examples.headers Examples.mapping
                  Examples.buyRow Quantity) /\
  act_unitPrice Examples.buyRecord
  = parseFloat (getMappedValue Examples.headers Examples.mapping
                  Examples.buyRow UnitPrice) /\
  (unparsable (getMappedValue Examples.headers Examples.mapping
                 Examples.buyRow Quantity) ->
   act_quantity Examples.buyRecord = NaN) /\
  (unparsable (getMappedValue Examples.headers Examples.mapping
                 Examples.buyRow UnitPrice) ->
   act_unitPrice Examples.buyRecord = NaN).
Proof.
  apply (transformRow_position_style_parses_directly
           Examples.headers Examples.mapping Examples.accounts
           Examples.isCashActivity Examples.buyRow Examples.buyRecord).
  - vm_compute. reflexivity.
  - reflexivity.
Defined.

(** C2, as stated, fails twice. A dividend row with quantity ["0"] and unit
    price ["5"] gets the amount 5, where the claim's derivation keeps the
    parsed quantity 0 and gives 0. A dividend row with quantity
    ["Infinity"] and unit price ["0"] gets the amount NaN and the unit price
    0, which are not equal. *)
Lemma transformRow_cash_style_amount_counterexample :
  (Examples.transform Examples.zeroQuantityRow = Ok Examples.zeroQuantityRecord /\
   Examples.isCashActivity (act_activityType Examples.zeroQuantityRecord) = true /\
   act_amount Examples.zeroQuantityRecord = Some (Examples.num "5") /\
   claimedCashAmount Examples.headers Examples.mapping Examples.zeroQuantityRow
   = zero /\
   eqN (Examples.num "5") zero = false) /\
  (Examples.transform Examples.infiniteQuantityRow
   = Ok Examples.infiniteQuantityRecord /\
   Examples.isCashActivity (act_activityType Examples.infiniteQuantityRecord)
   = true /\
   act_amount Examples.infiniteQuantityRecord = Some NaN /\
   act_unitPrice Examples.infiniteQuantityRecord = zero /\
   eqN zero NaN = false).
Proof.
  split.
  - split; [exact zeroQuantityRow_transforms|].
    repeat split; vm_compute; reflexivity.
  - split; [exact infiniteQuantityRow_transforms|].
    repeat split; vm_compute; reflexivity.
Qed.

Lemma transformRow_cash_style_one_unit_at_amount_witness :
  act_amount Examples.dividendRecord = Some (Examples.num "0.5") /\
  act_quantity Examples.dividendRecord = one /\
  (isNaN (Examples.num "0.5") = false ->
   eqN (act_unitPrice Examples.dividendRecord) (Examples.num "0.5") = true) /\
  (isNaN (Examples.num "0.5") = true ->
   act_unitPrice Examples.dividendRecord = zero).
Proof.
  apply (transformRow_cash_style_one_unit_at_amount
           Examples.headers Examples.mapping Examples.accounts
           Examples.isCashActivity Examples.dividendRow Examples.dividendRecord).
  - vm_compute. reflexivity.
  - reflexivity.
Defined.

Lemma transformRow_zero_amount_is_absent_witness :
  (Examples.isCashActivity (act_activityType Examples.dividendRecord) = true ->
   act_amount Examples.dividendRecord
   = Some (mul (Examples.num "2") (Examples.num "0.25"))) /\
  (Examples.isCashActivity (act_activityType Examples.dividendRecord) = false ->
   act_amount Examples.dividendRecord = None).
Proof.
  apply (transformRow_zero_amount_is_absent
           Examples.headersWithAmount Examples.mappingWithAmount Examples.accounts
           Examples.isCashActivity Examples.zeroAmountDividendRow
           Examples.dividendRecord "0.00").
  - vm_compute. reflexivity.
  - reflexivity.
  - reflexivity.
Defined.



(** ** The save-and-check mutation and [handleImport] *)

Lemma emit_run (ev : Event) (w : World) :
  emit ev w = ({| persisted := persisted w; trace := trace w ++ [ev] |}, Ok tt).
Proof. reflexivity. Qed.

Section Orchestrator.

Variable saveOutcome : ImportMappingData -> option JsError.
Variable checkOutcome : string -> list ActivityImport -> JsError + list ActivityImport.

Local Abbreviation mutate :=
  (saveAndCheckImportMutation saveOutcome checkOutcome
     (Some propsOnSuccess) (Some propsOnError)).

(** X24: the mutation saves the mapping first and submits the activities
    for the check second. When the save is rejected no check is made, the
    store is as before, and the caller's error callback gets
    ["Import failed: "] followed by the [message] property of the rejection
    as a template literal prints it. When the check is rejected after a
    save, the mapping is in the store under its account and the callback
    gets the same text. When both succeed the mapping query is invalidated
    and the success callback gets the checked activities. Each command is
    called at most once. *)
Theorem saveAndCheckImportMutation_saves_then_checks
    (data : ImportMappingData) (activities : list ActivityImport) (w : World) :
  (forall e,
     saveOutcome data = Some e ->
     mutate data activities w
     = ({| persisted := persisted w;
           trace := trace w ++ SaveAccountImportMapping data :: failureReport e |},
        Throw e)) /\
  (forall e,
     saveOutcome data = None ->
     checkOutcome (accountId data) activities = inl e ->
     mutate data activities w
     = ({| persisted := <[accountId data := data]> (persisted w);
           trace := trace w ++
                    SaveAccountImportMapping data
                    :: CheckActivitiesImport (accountId data) activities
                    :: failureReport e |},
        Throw e) /\
     persisted (fst (mutate data activities w)) !! accountId data = Some data) /\
  (forall checked,
     saveOutcome data = None ->
     checkOutcome (accountId data) activities = inr checked ->
     mutate data activities w
     = ({| persisted := <[accountId data := data]> (persisted w);
           trace := trace w ++
                    [SaveAccountImportMapping data;
                     CheckActivitiesImport (accountId data) activities;
                     InvalidateImportMapping;
                     CallOnSuccess checked] |},
        Ok checked)).
Proof.
  assert (Hfail : forall e,
    saveOutcome data = None ->
    checkOutcome (accountId data) activities = inl e ->
    mutate data activities w
    = ({| persisted := <[accountId data := data]> (persisted w);
          trace := trace w ++
                   SaveAccountImportMapping data
                   :: CheckActivitiesImport (accountId data) activities
                   :: failureReport e |},
       Throw e)).
  { intros e Hsave Hcheck.
    unfold saveAndCheckImportMutation, tryCatch, mutationFn, mutationOnError,
      saveAccountImportMapping, checkActivitiesImport, callOptional,
      propsOnError, bind, throw.
    rewrite !emit_run. simpl. rewrite Hsave. simpl. rewrite Hcheck. simpl.
    rewrite <- !app_assoc. reflexivity. }
  split; [|split].
  - intros e Hsave.
    unfold saveAndCheckImportMutation, tryCatch, mutationFn, mutationOnError,
      saveAccountImportMapping, callOptional, propsOnError, bind, throw.
    rewrite !emit_run. simpl. rewrite Hsave. simpl.
    rewrite <- !app_assoc. reflexivity.
  - intros e Hsave Hcheck. split; [exact (Hfail e Hsave Hcheck)|].
    rewrite (Hfail e Hsave Hcheck). simpl. apply lookup_insert_eq.
  - intros checked Hsave Hcheck.
    unfold saveAndCheckImportMutation, tryCatch, mutationFn, mutationOnSuccess,
      saveAccountImportMapping, checkActivitiesImport, callOptional,
      propsOnSuccess, bind, ret.
    rewrite !emit_run. simpl. rewrite Hsave. simpl. rewrite Hcheck. simpl.
    rewrite <- !app_assoc. reflexivity.
Qed.

Section Form.

Variable headers : list string.
Variable mapping : ImportMappingData.
Variable accounts : option (list Account).
Variable isCashActivity : ActivityTypeName -> bool.
Variable csvData : list (list string).
Variable validateActivities : list ActivityImport -> ValidationErrors.

Local Abbreviation import :=
  (handleImport saveOutcome checkOutcome headers mapping accounts isCashActivity
     csvData validateActivities).
Local Abbreviation candidates :=
  (activitiesToImport headers mapping accounts isCashActivity csvData).

(** C4: when the validation of the transformed rows reports errors,
    [handleImport] hands the report to [setValidationErrors] and returns:
    that is the only call it makes, so the mapping is not saved, the
    activities are not checked, and the store is as before. *)
Theorem handleImport_blocked_by_validation_errors
    (activities : list ActivityImport) (w : World) :
  candidates = Ok activities ->
  validateActivities activities <> ∅ ->
  import w
  = ({| persisted := persisted w;
        trace := trace w ++ [SetValidationErrors (validateActivities activities)] |},
     Ok tt) /\
  existsb isBackendCall [SetValidationErrors (validateActivities activities)] = false.
Proof.
  intros Hcandidates Herrors. split; [|reflexivity].
  assert (Hsize : (0 <? size (validateActivities activities))%nat = true).
  { apply Nat.ltb_lt, Nat.neq_0_lt_0, map_size_non_empty_iff. exact Herrors. }
  unfold handleImport, tryCatch, bind, liftR.
  rewrite Hcandidates, Hsize. reflexivity.
Qed.

(** Without validation errors the mutation runs on the current mapping and
    the transformed rows. *)
Lemma handleImport_clean_runs_mutation (activities : list ActivityImport) (w : World) :
  candidates = Ok activities ->
  validateActivities activities = ∅ ->
  saveOutcome mapping = None ->
  forall checked,
    checkOutcome (accountId mapping) activities = inr checked ->
    import w
    = ({| persisted := <[accountId mapping := mapping]> (persisted w);
          trace := trace w ++
                   [SaveAccountImportMapping mapping;
                    CheckActivitiesImport (accountId mapping) activities;
                    InvalidateImportMapping;
                    CallOnSuccess checked] |},
       Ok tt).
Proof.
  intros Hcandidates Hclean Hsave checked Hcheck.
  assert (Hsize : (0 <? size (validateActivities activities))%nat = false)
    by (rewrite Hclean, map_size_empty; reflexivity).
  unfold handleImport. unfold tryCatch at 1. unfold bind at 1 2. unfold liftR.
  rewrite Hcandidates, Hsize.
  unfold saveAndCheckImportMutation, tryCatch, mutationFn, mutationOnSuccess,
    saveAccountImportMapping, checkActivitiesImport, callOptional,
    propsOnSuccess, bind, ret.
  rewrite !emit_run. simpl. rewrite Hsave. simpl. rewrite Hcheck. simpl.
  rewrite <- !app_assoc. reflexivity.
Qed.

(** A row that fails to transform ends the import in the error callback,
    before validation and before any call of the backend. *)
Lemma handleImport_transformation_failure (error : JsError) (w : World) :
  candidates = Throw error ->
  import w
  = ({| persisted := persisted w;
        trace := trace w ++ [CallOnError ("Import failed: " ++ toStringError error)] |},
     Ok tt).
Proof.
  intros Hcandidates. unfold handleImport, tryCatch, bind, liftR.
  rewrite Hcandidates. reflexivity.
Qed.

End Form.

End Orchestrator.

Lemma undatedFile_transforms :
  activitiesToImport Examples.headers Examples.mapping Examples.accounts
    Examples.isCashActivity Examples.undatedFile
  = Ok [Examples.undatedRecord].
Proof. vm_compute. reflexivity. Qed.

Lemma handleImport_blocked_by_validation_errors_witness :
  handleImport Examples.saveOk Examples.checkOk Examples.headers Examples.mapping
    Examples.accounts Examples.isCashActivity Examples.undatedFile
    Examples.validateDates Examples.emptyWorld
  = ({| persisted := ∅;
        trace := [SetValidationErrors
                    (Examples.validateDates [Examples.undatedRecord])] |},
     Ok tt) /\
  existsb isBackendCall
    [SetValidationErrors (Examples.validateDates [Examples.undatedRecord])]
  = false.
Proof.
  apply (handleImport_blocked_by_validation_errors
           Examples.saveOk Examples.checkOk Examples.headers Examples.mapping
           Examples.accounts Examples.isCashActivity Examples.undatedFile
           Examples.validateDates [Examples.undatedRecord] Examples.emptyWorld).
  - vm_compute. reflexivity.
  - apply map_non_empty_singleton.
Defined.

Lemma saveAndCheckImportMutation_saves_then_checks_witness :
  saveAndCheckImportMutation Examples.saveOk Examples.checkFails
    (Some propsOnSuccess) (Some propsOnError)
    Examples.mapping [Examples.buyRecord] Examples.emptyWorld
  = ({| persisted := <["acc-1" := Examples.mapping]> ∅;
        trace := [SaveAccountImportMapping Examples.mapping;
                  CheckActivitiesImport "acc-1" [Examples.buyRecord];
                  CallOnError "Import failed: undefined";
                  ToastDestructive "Error importing activities" Undefined] |},
     Throw (ErrorStr "duplicate activity")).
Proof.
  apply (proj1 (proj2 (saveAndCheckImportMutation_saves_then_checks
                         Examples.saveOk Examples.checkFails
                         Examples.mapping [Examples.buyRecord] Examples.emptyWorld))
           (ErrorStr "duplicate activity")).
  - reflexivity.
  - reflexivity.
Defined.

(** * Further properties of the import form *)

(** ** Normalization of strings *)

Lemma isWhiteSpace_upperChar (c : ascii) :
  isWhiteSpace (upperChar c) = isWhiteSpace c.
Proof.
  destruct c as [b0 b1 b2 b3 b4 b5 b6 b7].
  destruct b0, b1, b2, b3, b4, b5, b6, b7; reflexivity.
Qed.

Lemma upperChar_idempotent (c : ascii) : upperChar (upperChar c) = upperChar c.
Proof.
  destruct c as [b0 b1 b2 b3 b4 b5 b6 b7].
  destruct b0, b1, b2, b3, b4, b5, b6, b7; reflexivity.
Qed.

Lemma toUpperCase_idempotent (s : string) :
  toUpperCase (toUpperCase s) = toUpperCase s.
Proof.
  induction s as [|c s IH]; simpl; [reflexivity|].
  rewrite upperChar_idempotent, IH. reflexivity.
Qed.

Lemma toUpperCase_trimStart (s : string) :
  toUpperCase (trimStart s) = trimStart (toUpperCase s).
Proof.
  induction s as [|c s IH]; simpl; [reflexivity|].
  rewrite isWhiteSpace_upperChar. destruct (isWhiteSpace c); [exact IH|reflexivity].
Qed.

Lemma toUpperCase_trimEnd (s : string) :
  toUpperCase (trimEnd s) = trimEnd (toUpperCase s).
Proof.
  induction s as [|c s IH]; simpl; [reflexivity|].
  rewrite <- IH, isWhiteSpace_upperChar.
  destruct (trimEnd s) as [|d kept]; simpl.
  - destruct (isWhiteSpace c); reflexivity.
  - reflexivity.
Qed.

(** Upper-casing and trimming commute. *)
Lemma toUpperCase_trim (s : string) : toUpperCase (trim s) = trim (toUpperCase s).
Proof.
  unfold trim. rewrite toUpperCase_trimEnd, toUpperCase_trimStart. reflexivity.
Qed.

Lemma trimStart_startsClean (s : string) : startsClean (trimStart s).
Proof.
  induction s as [|c s IH]; simpl; [exact I|].
  destruct (isWhiteSpace c) eqn:Hc; [exact IH|exact Hc].
Qed.

Lemma trimStart_clean (s : string) : startsClean s -> trimStart s = s.
Proof. destruct s as [|c s]; simpl; [reflexivity|]. intros ->. reflexivity. Qed.

Lemma trimEnd_startsClean (s : string) : startsClean s -> startsClean (trimEnd s).
Proof.
  destruct s as [|c s]; simpl; [exact (fun H => H)|]. intros Hc.
  destruct (trimEnd s); simpl; [rewrite Hc; exact Hc|exact Hc].
Qed.

Lemma trimEnd_cons_kept (c : ascii) (s : string) :
  trimEnd s <> EmptyString -> trimEnd (String c s) = String c (trimEnd s).
Proof. simpl. destruct (trimEnd s); [congruence|reflexivity]. Qed.

Lemma trimEnd_idempotent (s : string) : trimEnd (trimEnd s) = trimEnd s.
Proof.
  induction s as [|c s IH]; [reflexivity|].
  destruct (trimEnd s) as [|d kept] eqn:Hkept.
  - simpl. rewrite Hkept.
    destruct (isWhiteSpace c) eqn:Hc; simpl; [reflexivity|].
    rewrite Hc. reflexivity.
  - rewrite (trimEnd_cons_kept c s) by (rewrite Hkept; discriminate).
    rewrite Hkept.
    rewrite (trimEnd_cons_kept c (String d kept)) by (rewrite IH; discriminate).
    rewrite IH. reflexivity.
Qed.

Lemma trim_idempotent (s : string) : trim (trim s) = trim s.
Proof.
  unfold trim.
  rewrite (trimStart_clean (trimEnd (trimStart s))).
  - apply trimEnd_idempotent.
  - apply trimEnd_startsClean, trimStart_startsClean.
Qed.

Lemma normalized_idempotent (s : string) : normalized (normalized s) = normalized s.
Proof.
  unfold normalized.
  rewrite <- (toUpperCase_trim (trim s)), trim_idempotent.
  apply toUpperCase_idempotent.
Qed.

(** ** The field resolver, further *)

Lemma indexOfFrom_first (before after : list string) (x : string) (i : Z) :
  ~ In x before ->
  indexOfFrom (before ++ x :: after) x i = (i + Z.of_nat (List.length before))%Z.
Proof.
  revert i. induction before as [|h before IH]; intros i Hfresh; simpl.
  - rewrite String.eqb_refl. lia.
  - destruct (String.eqb_spec h x) as [Heq|Hne].
    + exfalso. apply Hfresh. left. exact Heq.
    + rewrite IH by (intros Hin; apply Hfresh; right; exact Hin). lia.
Qed.

(** X1: the resolver reads the column of the first header with the configured
    name: when the header list repeats a name, the later columns of that
    name are never read. *)
Theorem getMappedValue_first_occurrence
    (headers : list string) (mapping : ImportMappingData)
    (row : list string) (field : ImportFormat)
    (header : string) (before after : list string) (value : string) :
  fieldMappings mapping field = Some header ->
  headers = (before ++ header :: after)%list ->
  ~ In header before ->
  nth_error row (List.length before) = Some value ->
  getMappedValue headers mapping row field = Str value.
Proof.
  intros Hmapped -> Hfresh Hcell.
  unfold getMappedValue, mappedHeader, indexOf. rewrite Hmapped.
  rewrite (indexOfFrom_first before after header 0 Hfresh).
  destruct (Z.eqb_spec (0 + Z.of_nat (List.length before)) (-1)) as [Hminus|_];
    [lia|].
  unfold at_index.
  destruct (Z.ltb_spec (0 + Z.of_nat (List.length before)) 0) as [Hneg|_]; [lia|].
  replace (Z.to_nat (0 + Z.of_nat (List.length before))) with (List.length before)
    by lia.
  rewrite Hcell. reflexivity.
Qed.

(** X2: the resolver answers [undefined] in one situation only: the header it
    looks for is in the header list and the row has no cell at its index. *)
Theorem getMappedValue_undefined_iff
    (headers : list string) (mapping : ImportMappingData)
    (row : list string) (field : ImportFormat) :
  getMappedValue headers mapping row field = Undefined <->
  In (mappedHeader mapping field) headers /\
  (Z.of_nat (List.length row) <= indexOf headers (mappedHeader mapping field))%Z.
Proof.
  unfold getMappedValue.
  destruct (in_dec string_dec (mappedHeader mapping field) headers) as [Hin|Hout].
  - pose proof (indexOf_present _ _ Hin) as Hrange.
    destruct (Z.eqb_spec (indexOf headers (mappedHeader mapping field)) (-1))
      as [Hminus|_]; [lia|].
    split.
    + intros Hundef. split; [exact Hin|].
      destruct (Z.le_gt_cases (Z.of_nat (List.length row))
                  (indexOf headers (mappedHeader mapping field))) as [Hle|Hgt];
        [exact Hle|].
      assert (Hwithin : (0 <= indexOf headers (mappedHeader mapping field)
                         < Z.of_nat (List.length row))%Z) by lia.
      destruct (at_index_within row _ Hwithin) as [s Hs]. congruence.
    + intros [_ Hshort]. apply at_index_past_end. exact Hshort.
  - rewrite (indexOf_absent _ _ Hout). simpl. split; [discriminate|].
    intros [Hin _]. contradiction.
Qed.

(** ** The type matcher, further *)

Section TypeMatcherFurther.

Variable mapping : ImportMappingData.

Lemma firstMappedType_app (n : string)
    (before rest : list (ActivityTypeName * option (list string))) :
  firstMappedType n (before ++ rest)
  = match firstMappedType n before with
    | Some appType => Some appType
    | None => firstMappedType n rest
    end.
Proof.
  induction before as [|[appType csvTypes] before IH]; simpl; [reflexivity|].
  destruct (someMatches n csvTypes); [reflexivity|exact IH].
Qed.

Lemma firstMappedType_in (n : string)
    (entries : list (ActivityTypeName * option (list string)))
    (appType : ActivityTypeName) :
  firstMappedType n entries = Some appType -> In appType (map fst entries).
Proof.
  induction entries as [|[t csvTypes] entries IH]; simpl; [discriminate|].
  destruct (someMatches n csvTypes).
  - intros Hsome. injection Hsome as ->. left. reflexivity.
  - intros Hsome. right. exact (IH Hsome).
Qed.

(** The loop answers a type only for the first entry that matches. *)
Lemma firstMappedType_Some_inv (rawType : string)
    (entries : list (ActivityTypeName * option (list string)))
    (appType : ActivityTypeName) :
  firstMappedType (normalized rawType) entries = Some appType ->
  exists before patterns after,
    entries = (before ++ (appType, patterns) :: after)%list /\
    entryMatches rawType (appType, patterns) /\
    (forall entry, In entry before -> ~ entryMatches rawType entry).
Proof.
  induction entries as [|[t csvTypes] entries IH]; simpl; [discriminate|].
  destruct (someMatches (normalized rawType) csvTypes) eqn:Hsome.
  - intros Hfound. injection Hfound as ->.
    exists [], csvTypes, entries. split; [reflexivity|].
    split; [apply (someMatches_iff rawType (appType, csvTypes)); exact Hsome|].
    intros entry [].
  - intros Hfound.
    destruct (IH Hfound) as [before [patterns [after [-> [Hmatch Hfirst]]]]].
    exists ((t, csvTypes) :: before), patterns, after.
    split; [reflexivity|]. split; [exact Hmatch|].
    intros entry [<-|Hin] Hentry.
    + apply (someMatches_iff rawType (t, csvTypes)) in Hentry. simpl in Hentry.
      congruence.
    + exact (Hfirst entry Hin Hentry).
Qed.

Lemma firstMappedType_None_inv (rawType : string)
    (entries : list (ActivityTypeName * option (list string))) :
  firstMappedType (normalized rawType) entries = None ->
  forall entry, In entry entries -> ~ entryMatches rawType entry.
Proof.
  induction entries as [|[t csvTypes] entries IH]; simpl; [intros _ entry []|].
  destruct (someMatches (normalized rawType) csvTypes) eqn:Hsome; [discriminate|].
  intros Hnone entry [<-|Hin] Hentry.
  - apply (someMatches_iff rawType (t, csvTypes)) in Hentry. simpl in Hentry.
    congruence.
  - exact (IH Hnone entry Hin Hentry).
Qed.

(** X3: every answer of the matcher has one of two explanations: it is the
    internal type of the first entry with a matching pattern, or no entry
    matches and it is the raw value. So an answer that is not the raw value
    is the type of an entry one of whose patterns matches; the raw value
    itself is answered whatever it spells. *)
Theorem matchActivityType_answer_explained (rawType : string) :
  ((exists before patterns after,
      activityMappings mapping
      = (before ++ (matchActivityType mapping rawType, patterns) :: after)%list /\
      entryMatches rawType (matchActivityType mapping rawType, patterns) /\
      (forall entry, In entry before -> ~ entryMatches rawType entry)) \/
   (matchActivityType mapping rawType = rawType /\
    forall entry,
      In entry (activityMappings mapping) -> ~ entryMatches rawType entry)) /\
  (matchActivityType mapping rawType <> rawType ->
   exists patterns,
     In (matchActivityType mapping rawType, patterns) (activityMappings mapping) /\
     entryMatches rawType (matchActivityType mapping rawType, patterns)).
Proof.
  unfold matchActivityType. fold (normalized rawType).
  destruct (firstMappedType (normalized rawType) (activityMappings mapping))
    as [appType|] eqn:Hfound.
  - destruct (firstMappedType_Some_inv _ _ _ Hfound)
      as [before [patterns [after [Hsplit [Hmatch Hfirst]]]]].
    split.
    + left. exists before, patterns, after. repeat split; assumption.
    + intros _. exists patterns. split; [|exact Hmatch].
      rewrite Hsplit. apply in_or_app. right. left. reflexivity.
  - split.
    + right. split; [reflexivity|]. exact (firstMappedType_None_inv _ _ Hfound).
    + intros Hdiffers. congruence.
Qed.

Lemma firstMappedType_matched (rawType : string)
    (entry : ActivityTypeName * option (list string)) :
  In entry (activityMappings mapping) ->
  entryMatches rawType entry ->
  exists appType,
    firstMappedType (normalized rawType) (activityMappings mapping) = Some appType.
Proof.
  intros Hin Hmatch.
  destruct (firstMappedType (normalized rawType) (activityMappings mapping))
    as [appType|] eqn:Hfound; [eauto|].
  exfalso. exact (firstMappedType_None_inv _ _ Hfound entry Hin Hmatch).
Qed.

(** X4: matching does not see case or surrounding white space: two raw values
    with the same trimmed, upper-cased form get the same internal type as
    soon as a pattern matches one of them. *)
Theorem matchActivityType_ignores_case_and_padding
    (rawType otherType : string)
    (entry : ActivityTypeName * option (list string)) :
  normalized rawType = normalized otherType ->
  In entry (activityMappings mapping) ->
  entryMatches rawType entry ->
  matchActivityType mapping rawType = matchActivityType mapping otherType.
Proof.
  intros Hsame Hin Hmatch.
  destruct (firstMappedType_matched rawType entry Hin Hmatch) as [appType Hfound].
  unfold matchActivityType. fold (normalized rawType) (normalized otherType).
  rewrite <- Hsame, Hfound. reflexivity.
Qed.

(** X5: matching the normalized value again: a matched raw value keeps its
    internal type, an unmatched one falls back to its normalized form, which
    is stable from then on. *)
Theorem matchActivityType_renormalized (rawType : string) :
  (forall entry,
     In entry (activityMappings mapping) -> entryMatches rawType entry ->
     matchActivityType mapping (normalized rawType)
     = matchActivityType mapping rawType) /\
  ((forall entry,
      In entry (activityMappings mapping) -> ~ entryMatches rawType entry) ->
   matchActivityType mapping (normalized rawType) = normalized rawType /\
   matchActivityType mapping (normalized (normalized rawType))
   = normalized rawType).
Proof.
  split.
  - intros entry Hin Hmatch.
    destruct (firstMappedType_matched rawType entry Hin Hmatch) as [appType Hfound].
    unfold matchActivityType. fold (normalized rawType) (normalized (normalized rawType)).
    rewrite normalized_idempotent, Hfound. reflexivity.
  - intros Hnone.
    assert (Hfallback : matchActivityType mapping (normalized rawType)
                        = normalized rawType).
    { unfold matchActivityType. fold (normalized (normalized rawType)).
      rewrite normalized_idempotent.
      rewrite <- (app_nil_r (activityMappings mapping)).
      rewrite (firstMappedType_skip rawType _ [] Hnone). reflexivity. }
    split; [exact Hfallback|]. rewrite normalized_idempotent. exact Hfallback.
Qed.

(** X6: a pattern that is blank after trimming matches every raw value: the
    entries after its entry, and the fallback, are never reached. *)
Theorem matchActivityType_blank_pattern_catches_all
    (before after : list (ActivityTypeName * option (list string)))
    (appType : ActivityTypeName) (patterns : list string) (pattern : string)
    (rawType : string) :
  activityMappings mapping = (before ++ (appType, Some patterns) :: after)%list ->
  In pattern patterns ->
  trim pattern = "" ->
  In (matchActivityType mapping rawType) (map fst before ++ [appType])%list.
Proof.
  intros Hsplit Hin Hblank.
  unfold matchActivityType. rewrite Hsplit, firstMappedType_app.
  destruct (firstMappedType (toUpperCase (trim rawType)) before)
    as [earlier|] eqn:Hbefore.
  - apply in_or_app. left. exact (firstMappedType_in _ _ _ Hbefore).
  - simpl.
    assert (Hsome : existsb (matchesMappedType (toUpperCase (trim rawType)))
                      patterns = true).
    { apply existsb_exists. exists pattern. split; [exact Hin|].
      unfold matchesMappedType, startsWith. rewrite Hblank. simpl.
      destruct (toUpperCase (trim rawType)); reflexivity. }
    rewrite Hsome. apply in_or_app. right. left. reflexivity.
Qed.

End TypeMatcherFurther.

(** ** The row transformer, further *)

Section RowTransformerFurther.

Variable headers : list string.
Variable mapping : ImportMappingData.
Variable accounts : option (list Account).
Variable isCashActivity : ActivityTypeName -> bool.

Local Abbreviation resolve := (getMappedValue headers mapping).
Local Abbreviation transform := (transformRow headers mapping accounts isCashActivity).

(** The fields of a record that do not depend on the kind of activity. *)
Lemma transformRow_Ok_fields (row : list string) (rec : ActivityImport) :
  transform row = Ok rec ->
  act_date rec = resolve row Date /\
  act_fee rec = orN (parseFloat (resolve row Fee)) zero /\
  act_currency rec
  = (if truthyCell (resolve row Currency) then resolve row Currency
     else accountCurrency mapping accounts) /\
  act_accountId rec = accountId mapping.
Proof.
  unfold transformRow, getMappedActivityType.
  destruct (resolve row ActivityType) as [|rawType]; simpl; [discriminate|].
  destruct (deriveAmounts headers mapping
              (isCashActivity (matchActivityType mapping rawType)) row)
    as [[amount quantity] unitPrice].
  destruct (resolve row Symbol) as [|rawSymbol]; simpl; [discriminate|].
  intros Hrec. injection Hrec as <-. simpl. repeat split; reflexivity.
Qed.

(** Why a transformation fails. *)
Lemma transformRow_Throw_inv (row : list string) (e : JsError) :
  transform row = Throw e ->
  e = typeErrorReading "trim" /\
  (resolve row ActivityType = Undefined \/ resolve row Symbol = Undefined).
Proof.
  unfold transformRow, getMappedActivityType.
  destruct (resolve row ActivityType) as [|rawType]; simpl.
  - intros Hthrow. injection Hthrow as <-. split; [reflexivity|]. left. reflexivity.
  - destruct (deriveAmounts headers mapping
                (isCashActivity (matchActivityType mapping rawType)) row)
      as [[amount quantity] unitPrice].
    destruct (resolve row Symbol) as [|rawSymbol]; simpl; [|discriminate].
    intros Hthrow. injection Hthrow as <-. split; [reflexivity|]. right. reflexivity.
Qed.

Lemma transformRow_outcome (row : list string) :
  (exists rec, transform row = Ok rec) \/
  transform row = Throw (typeErrorReading "trim").
Proof.
  destruct (transform row) as [rec|e] eqn:Hrow; [left; eauto|].
  right. destruct (transformRow_Throw_inv row e Hrow) as [-> _]. reflexivity.
Qed.

Lemma transformRow_undefined_cell_throws (row : list string) :
  resolve row ActivityType = Undefined \/ resolve row Symbol = Undefined ->
  transform row = Throw (typeErrorReading "trim").
Proof.
  intros Hcell.
  destruct (transformRow_outcome row) as [[rec Hrec]|Hthrow]; [|exact Hthrow].
  destruct (transformRow_Ok_inv headers mapping accounts isCashActivity row rec Hrec)
    as [rawType [rawSymbol [Htype [Hsymbol _]]]].
  destruct Hcell; congruence.
Qed.

(** X7: a row transforms exactly when its ActivityType and Symbol fields do not
    resolve to [undefined]; every failure is the [TypeError] of calling
    [trim] on [undefined], whichever of the two fields caused it. *)
Theorem transformRow_succeeds_iff (row : list string) :
  ((exists rec, transform row = Ok rec) <->
   resolve row ActivityType <> Undefined /\ resolve row Symbol <> Undefined) /\
  (forall e, transform row = Throw e -> e = typeErrorReading "trim").
Proof.
  split; [split|].
  - intros [rec Hrec].
    destruct (transformRow_Ok_inv headers mapping accounts isCashActivity row rec Hrec)
      as [rawType [rawSymbol [Htype [Hsymbol _]]]].
    split; congruence.
  - intros [Htype Hsymbol].
    destruct (resolve row ActivityType) as [|rawType] eqn:Htype'; [congruence|].
    destruct (resolve row Symbol) as [|rawSymbol] eqn:Hsymbol'; [congruence|].
    exact (transformRow_total headers mapping accounts isCashActivity row
             rawType rawSymbol Htype' Hsymbol').
  - intros e Hthrow. exact (proj1 (transformRow_Throw_inv row e Hthrow)).
Qed.

(** X8: the fee of a record is never NaN: it is the number read from the Fee
    field when that is neither NaN nor zero, and [0] otherwise. *)
Theorem transformRow_fee_is_a_number (row : list string) (rec : ActivityImport) :
  transform row = Ok rec ->
  isNaN (act_fee rec) = false /\
  (truthyN (parseFloat (resolve row Fee)) = true ->
   act_fee rec = parseFloat (resolve row Fee)) /\
  (truthyN (parseFloat (resolve row Fee)) = false -> act_fee rec = zero).
Proof.
  intros Hrec.
  destruct (transformRow_Ok_fields row rec Hrec) as [_ [Hfee _]].
  rewrite Hfee. unfold orN.
  destruct (truthyN (parseFloat (resolve row Fee))) eqn:Htruthy.
  - split; [|split; [reflexivity|discriminate]].
    unfold truthyN in Htruthy.
    destruct (isNaN (parseFloat (resolve row Fee))); [discriminate|reflexivity].
  - split; [reflexivity|]. split; [discriminate|reflexivity].
Qed.

Lemma find_first_account (before : list Account) (account : Account)
    (after : list Account) :
  account_id account = accountId mapping ->
  (forall other, In other before -> account_id other <> accountId mapping) ->
  find (fun a => String.eqb (account_id a) (accountId mapping))
    (before ++ account :: after)%list
  = Some account.
Proof.
  intros Hid. induction before as [|b before IH]; intros Hearlier; simpl.
  - rewrite Hid, String.eqb_refl. reflexivity.
  - destruct (String.eqb_spec (account_id b) (accountId mapping)) as [Heq|_].
    + exfalso. exact (Hearlier b (or_introl eq_refl) Heq).
    + apply IH. intros other Hin. apply Hearlier. right. exact Hin.
Qed.

(** X9: the currency of a record: the Currency cell when it is a non-empty
    string, whatever the accounts; otherwise the currency of the first
    account whose id is the mapping's account id; and [undefined] when the
    accounts are not loaded or none has that id. *)
Theorem transformRow_currency_fallback (row : list string) (rec : ActivityImport) :
  transform row = Ok rec ->
  (truthyCell (resolve row Currency) = true ->
   act_currency rec = resolve row Currency) /\
  (truthyCell (resolve row Currency) = false ->
   (accounts = None -> act_currency rec = Undefined) /\
   (forall others,
      accounts = Some others ->
      (forall other, In other others -> account_id other <> accountId mapping) ->
      act_currency rec = Undefined) /\
   (forall before account after,
      accounts = Some (before ++ account :: after)%list ->
      account_id account = accountId mapping ->
      (forall other, In other before -> account_id other <> accountId mapping) ->
      act_currency rec = Str (account_currency account))).
Proof.
  intros Hrec.
  destruct (transformRow_Ok_fields row rec Hrec) as [_ [_ [Hcurrency _]]].
  rewrite Hcurrency. split; [intros ->; reflexivity|].
  intros ->. unfold accountCurrency. split; [|split].
  - intros ->. reflexivity.
  - intros others -> Hnone.
    destruct (find _ others) as [found|] eqn:Hfind; [|reflexivity].
    apply find_some in Hfind. destruct Hfind as [Hin Hid].
    apply String.eqb_eq in Hid. exfalso. exact (Hnone found Hin Hid).
  - intros before account after -> Hid Hearlier.
    rewrite (find_first_account before account after Hid Hearlier). reflexivity.
Qed.

(** X10: a record that is not cash-style has no amount, or has the number read
    from a non-empty Amount cell, which is then neither zero nor NaN. *)
Theorem transformRow_position_style_amount (row : list string) (rec : ActivityImport) :
  transform row = Ok rec ->
  isCashActivity (act_activityType rec) = false ->
  act_amount rec = None \/
  (act_amount rec = Some (parseFloat (resolve row Amount)) /\
   truthyCell (resolve row Amount) = true /\
   truthyN (parseFloat (resolve row Amount)) = true).
Proof.
  intros Hrec Hposition.
  destruct (transformRow_Ok_inv headers mapping accounts isCashActivity row rec Hrec)
    as [rawType [rawSymbol [_ [_ [_ [Hderive _]]]]]].
  rewrite Hposition in Hderive. unfold deriveAmounts, parsedAmount in Hderive.
  injection Hderive as Hamount _ _. rewrite Hamount.
  destruct (truthyCell (resolve row Amount)); [|left; reflexivity].
  destruct (truthyN (parseFloat (resolve row Amount))); [|left; reflexivity].
  right. repeat split; reflexivity.
Qed.

(** X11: the symbol dictionary is read at trimmed keys only, so an entry whose
    key has white space at either end never applies: the transformation is
    the same without it. *)
Theorem transformRow_ignores_padded_symbol_keys (row : list string) (key : string) :
  trim key <> key ->
  transformRow headers
    (withSymbolMappings mapping (delete key (symbolMappings mapping)))
    accounts isCashActivity row
  = transform row.
Proof.
  intros Hpadded. unfold transformRow.
  change (getMappedActivityType headers
            (withSymbolMappings mapping (delete key (symbolMappings mapping))) row)
    with (getMappedActivityType headers mapping row).
  destruct (getMappedActivityType headers mapping row) as [activityType|e];
    simpl; [|reflexivity].
  change (deriveAmounts headers
            (withSymbolMappings mapping (delete key (symbolMappings mapping))))
    with (deriveAmounts headers mapping).
  destruct (deriveAmounts headers mapping (isCashActivity activityType) row)
    as [[amount quantity] unitPrice].
  change (getMappedValue headers
            (withSymbolMappings mapping (delete key (symbolMappings mapping))))
    with (getMappedValue headers mapping).
  destruct (resolve row Symbol) as [|rawSymbol]; simpl; [reflexivity|].
  assert (Hsame : mappedSymbol
                    (withSymbolMappings mapping (delete key (symbolMappings mapping)))
                    (trim rawSymbol)
                  = mappedSymbol mapping (trim rawSymbol)).
  { unfold mappedSymbol. simpl. rewrite lookup_delete_ne; [reflexivity|].
    intros ->. apply Hpadded. apply trim_idempotent. }
  rewrite Hsame. reflexivity.
Qed.

End RowTransformerFurther.

(** ** The batch of records *)

Lemma mapR_Ok_inv {A B} (f : A -> result B) (xs : list A) (ys : list B) :
  mapR f xs = Ok ys -> Forall2 (fun x y => f x = Ok y) xs ys.
Proof.
  revert ys. induction xs as [|x xs IH]; intros ys; simpl.
  - intros Hok. injection Hok as <-. constructor.
  - destruct (f x) as [y|e] eqn:Hx; simpl; [|discriminate].
    destruct (mapR f xs) as [rest|e]; simpl; [|discriminate].
    intros Hok. injection Hok as <-. constructor; [exact Hx|].
    apply IH. reflexivity.
Qed.

Lemma mapR_Ok_each {A B} (f : A -> result B) (xs : list A) (ys : list B) :
  mapR f xs = Ok ys -> forall x, In x xs -> exists y, f x = Ok y.
Proof.
  intros Hok. apply mapR_Ok_inv in Hok.
  induction Hok as [|x y xs ys Hx _ IH]; intros x' Hin; [destruct Hin|].
  destruct Hin as [<-|Hin]; [eauto|exact (IH x' Hin)].
Qed.

Lemma mapR_all_Ok {A B} (f : A -> result B) (xs : list A) :
  (forall x, In x xs -> exists y, f x = Ok y) -> exists ys, mapR f xs = Ok ys.
Proof.
  induction xs as [|x xs IH]; intros Hall; simpl; [eauto|].
  destruct (Hall x (or_introl eq_refl)) as [y Hy]. rewrite Hy. simpl.
  destruct IH as [ys Hys]; [intros x' Hin; apply Hall; right; exact Hin|].
  rewrite Hys. simpl. eauto.
Qed.

Lemma mapR_Throw_inv {A B} (f : A -> result B) (xs : list A) (e : JsError) :
  mapR f xs = Throw e -> exists x, In x xs /\ f x = Throw e.
Proof.
  induction xs as [|x xs IH]; simpl; [discriminate|].
  destruct (f x) as [y|e'] eqn:Hx; simpl.
  - destruct (mapR f xs) as [rest|e'] eqn:Hrest; simpl; [discriminate|].
    intros Hthrow. injection Hthrow as ->.
    destruct (IH eq_refl) as [x' [Hin Hx']]. exists x'. split; [right|]; assumption.
  - intros Hthrow. injection Hthrow as ->. exists x. split; [left; reflexivity|].
    exact Hx.
Qed.

Section Batch.

Variable headers : list string.
Variable mapping : ImportMappingData.
Variable accounts : option (list Account).
Variable isCashActivity : ActivityTypeName -> bool.
Variable csvData : list (list string).

Local Abbreviation resolve := (getMappedValue headers mapping).
Local Abbreviation transform := (transformRow headers mapping accounts isCashActivity).
Local Abbreviation candidates :=
  (activitiesToImport headers mapping accounts isCashActivity csvData).

(** X12: the batch has one record for each row after the first, in the order of
    the rows: the record at position [i] is the transformation of row
    [i + 1], and the first row (the header row) is never transformed. *)
Theorem activitiesToImport_one_record_per_data_row
    (activities : list ActivityImport) :
  candidates = Ok activities ->
  List.length activities = (List.length csvData - 1)%nat /\
  (forall i row,
     nth_error csvData (S i) = Some row ->
     exists rec, nth_error activities i = Some rec /\ transform row = Ok rec).
Proof.
  unfold activitiesToImport. intros Hok. apply mapR_Ok_inv in Hok.
  split.
  - rewrite <- (Forall2_length _ _ _ Hok). rewrite length_skipn. reflexivity.
  - intros i row Hrow.
    assert (Hdata : nth_error (skipn 1 csvData) i = Some row)
      by (rewrite nth_error_skipn; exact Hrow).
    clear Hrow. revert i Hdata.
    induction Hok as [|r rec rows recs Hr _ IH]; intros i Hdata.
    + destruct i; discriminate.
    + destruct i as [|i]; simpl in *.
      * injection Hdata as <-. eauto.
      * exact (IH i Hdata).
Qed.

Lemma activitiesToImport_undefined_cell (row : list string) :
  In row (skipn 1 csvData) ->
  resolve row ActivityType = Undefined \/ resolve row Symbol = Undefined ->
  candidates = Throw (typeErrorReading "trim").
Proof.
  intros Hin Hcell. unfold activitiesToImport.
  destruct (mapR transform (skipn 1 csvData)) as [activities|e] eqn:Hbatch.
  - exfalso. destruct (mapR_Ok_each _ _ _ Hbatch row Hin) as [rec Hrec].
    rewrite (transformRow_undefined_cell_throws headers mapping accounts
               isCashActivity row Hcell) in Hrec. discriminate.
  - apply mapR_Throw_inv in Hbatch. destruct Hbatch as [bad [_ Hbad]].
    destruct (transformRow_Throw_inv headers mapping accounts isCashActivity
                bad e Hbad) as [-> _]. reflexivity.
Qed.

(** X13: the batch fails exactly when a row after the first has no cell under
    the header of the ActivityType or of the Symbol field; the error is the
    [TypeError] of [trim], and no record of the other rows is kept. *)
Theorem activitiesToImport_fails_iff (e : JsError) :
  candidates = Throw e <->
  e = typeErrorReading "trim" /\
  exists row,
    In row (skipn 1 csvData) /\
    (resolve row ActivityType = Undefined \/ resolve row Symbol = Undefined).
Proof.
  unfold activitiesToImport. split.
  - intros Hthrow. apply mapR_Throw_inv in Hthrow.
    destruct Hthrow as [row [Hin Hrow]].
    destruct (transformRow_Throw_inv headers mapping accounts isCashActivity
                row e Hrow) as [He Hcell].
    split; [exact He|]. exists row. split; assumption.
  - intros [-> [row [Hin Hcell]]].
    exact (activitiesToImport_undefined_cell row Hin Hcell).
Qed.

(** X14: when every row after the first has a cell under each header, the
    batch is built: no row can fail. *)
Theorem activitiesToImport_total_on_full_rows :
  (forall row,
     In row (skipn 1 csvData) -> (List.length headers <= List.length row)%nat) ->
  exists activities, candidates = Ok activities.
Proof.
  intros Hfull. unfold activitiesToImport. apply mapR_all_Ok.
  intros row Hin.
  exact (transformRow_full_row headers mapping accounts isCashActivity row
           (Hfull row Hin)).
Qed.

End Batch.

(** ** [handleImport], further *)

Section ImportRun.

Variable saveOutcome : ImportMappingData -> option JsError.
Variable checkOutcome : string -> list ActivityImport -> JsError + list ActivityImport.
Variable headers : list string.
Variable mapping : ImportMappingData.
Variable accounts : option (list Account).
Variable isCashActivity : ActivityTypeName -> bool.
Variable csvData : list (list string).
Variable validateActivities : list ActivityImport -> ValidationErrors.

Local Abbreviation resolve := (getMappedValue headers mapping).
Local Abbreviation import :=
  (handleImport saveOutcome checkOutcome headers mapping accounts isCashActivity
     csvData validateActivities).
Local Abbreviation candidates :=
  (activitiesToImport headers mapping accounts isCashActivity csvData).

(** What the page's error callback receives when the mutation rejects with
    [e]: the message of the hook, wrapped by the form, and then the message
    of the [catch] of [handleImport]. *)
Local Abbreviation rejection e :=
  [CallOnError ("Import failed: " ++ "Import failed: "
                ++ toStringCell (errorMessage e));
   ToastDestructive "Error importing activities" (errorMessage e);
   CallOnError ("Import failed: " ++ toStringError e)].

Lemma handleImport_blocked (activities : list ActivityImport) (w : World) :
  candidates = Ok activities ->
  (0 <? size (validateActivities activities))%nat = true ->
  import w
  = ({| persisted := persisted w;
        trace := trace w ++ [SetValidationErrors (validateActivities activities)] |},
     Ok tt).
Proof.
  intros Hcandidates Hsize. unfold handleImport, tryCatch, bind, liftR.
  rewrite Hcandidates, Hsize. reflexivity.
Qed.

Lemma handleImport_save_rejected
    (activities : list ActivityImport) (e : JsError) (w : World) :
  candidates = Ok activities ->
  (0 <? size (validateActivities activities))%nat = false ->
  saveOutcome mapping = Some e ->
  import w
  = ({| persisted := persisted w;
        trace := trace w ++ SaveAccountImportMapping mapping :: rejection e |},
     Ok tt).
Proof.
  intros Hcandidates Hsize Hsave.
  unfold handleImport. unfold tryCatch at 1. unfold bind at 1 2. unfold liftR.
  rewrite Hcandidates, Hsize.
  unfold saveAndCheckImportMutation, tryCatch, mutationFn, mutationOnError,
    saveAccountImportMapping, callOptional, propsOnError, bind, throw.
  rewrite !emit_run. simpl. rewrite Hsave. simpl. rewrite !emit_run. simpl.
  rewrite <- !app_assoc. reflexivity.
Qed.

Lemma handleImport_check_rejected
    (activities : list ActivityImport) (e : JsError) (w : World) :
  candidates = Ok activities ->
  (0 <? size (validateActivities activities))%nat = false ->
  saveOutcome mapping = None ->
  checkOutcome (accountId mapping) activities = inl e ->
  import w
  = ({| persisted := <[accountId mapping := mapping]> (persisted w);
        trace := trace w ++
                 SaveAccountImportMapping mapping
                 :: CheckActivitiesImport (accountId mapping) activities
                 :: rejection e |},
     Ok tt).
Proof.
  intros Hcandidates Hsize Hsave Hcheck.
  unfold handleImport. unfold tryCatch at 1. unfold bind at 1 2. unfold liftR.
  rewrite Hcandidates, Hsize.
  unfold saveAndCheckImportMutation, tryCatch, mutationFn, mutationOnError,
    saveAccountImportMapping, checkActivitiesImport, callOptional, propsOnError,
    bind, throw.
  rewrite !emit_run. simpl. rewrite Hsave. simpl. rewrite Hcheck. simpl.
  rewrite !emit_run. simpl. rewrite <- !app_assoc. reflexivity.
Qed.

Lemma handleImport_accepted
    (activities checked : list ActivityImport) (w : World) :
  candidates = Ok activities ->
  (0 <? size (validateActivities activities))%nat = false ->
  saveOutcome mapping = None ->
  checkOutcome (accountId mapping) activities = inr checked ->
  import w
  = ({| persisted := <[accountId mapping := mapping]> (persisted w);
        trace := trace w ++
                 [SaveAccountImportMapping mapping;
                  CheckActivitiesImport (accountId mapping) activities;
                  InvalidateImportMapping;
                  CallOnSuccess checked] |},
     Ok tt).
Proof.
  intros Hcandidates Hsize Hsave Hcheck.
  unfold handleImport. unfold tryCatch at 1. unfold bind at 1 2. unfold liftR.
  rewrite Hcandidates, Hsize.
  unfold saveAndCheckImportMutation, tryCatch, mutationFn, mutationOnSuccess,
    saveAccountImportMapping, checkActivitiesImport, callOptional,
    propsOnSuccess, bind, ret.
  rewrite !emit_run. simpl. rewrite Hsave. simpl. rewrite Hcheck. simpl.
  rewrite <- !app_assoc. reflexivity.
Qed.

Lemma handleImport_failed (e : JsError) (w : World) :
  candidates = Throw e ->
  import w
  = ({| persisted := persisted w;
        trace := trace w ++ [CallOnError ("Import failed: " ++ toStringError e)] |},
     Ok tt).
Proof.
  intros Hcandidates. unfold handleImport, tryCatch, bind, liftR.
  rewrite Hcandidates. reflexivity.
Qed.

(** The five ways a run of [handleImport] can go, each with its equation. *)
Ltac import_cases w :=
  let activities := fresh "activities" in
  let e := fresh "e" in
  let checked := fresh "checked" in
  let Hcandidates := fresh "Hcandidates" in
  let Hsize := fresh "Hsize" in
  let Hsave := fresh "Hsave" in
  let Hcheck := fresh "Hcheck" in
  destruct candidates as [activities|e] eqn:Hcandidates;
  [ destruct (0 <? size (validateActivities activities))%nat eqn:Hsize;
    [ rewrite (handleImport_blocked activities w Hcandidates Hsize)
    | destruct (saveOutcome mapping) as [e|] eqn:Hsave;
      [ rewrite (handleImport_save_rejected activities e w Hcandidates Hsize Hsave)
      | destruct (checkOutcome (accountId mapping) activities) as [e|checked]
          eqn:Hcheck;
        [ rewrite (handleImport_check_rejected activities e w
                     Hcandidates Hsize Hsave Hcheck)
        | rewrite (handleImport_accepted activities checked w
                     Hcandidates Hsize Hsave Hcheck) ] ] ]
  | rewrite (handleImport_failed e w Hcandidates) ].

(** X15: when the [onError] callback of the form does not throw,
    [handleImport] does not throw and its promise does not reject, whatever
    [onSuccess] and the backend do: a row that cannot be transformed, a
    rejected save and a rejected check all end in [onError], and the promise
    resolves. The condition is needed: when the batch fails and [onError]
    throws on its report, the promise rejects with what [onError] threw. *)
Theorem handleImport_never_throws
    (onSuccess : list ActivityImport -> M unit) (onError : string -> M unit)
    (w : World) :
  ((forall message w', snd (onError message w') = Ok tt) ->
   snd (handleImportWith saveOutcome checkOutcome headers mapping accounts
          isCashActivity csvData validateActivities onSuccess onError w)
   = Ok tt) /\
  (forall e thrown w',
     candidates = Throw e ->
     onError ("Import failed: " ++ toStringError e) w = (w', Throw thrown) ->
     handleImportWith saveOutcome checkOutcome headers mapping accounts
       isCashActivity csvData validateActivities onSuccess onError w
     = (w', Throw thrown)).
Proof.
  split.
  - intros Hquiet. unfold handleImportWith, tryCatch.
    match goal with
    | |- snd (match ?run with _ => _ end) = _ =>
        destruct run as [w1 [[]|e]]; [reflexivity|apply Hquiet]
    end.
  - intros e thrown w' Hcandidates Hthrows.
    unfold handleImportWith, tryCatch, bind, liftR.
    rewrite Hcandidates. exact Hthrows.
Qed.

(** X16: [handleImport] leaves the mappings of every other account as they are,
    and changes the store at all only when the save of the current mapping
    is accepted, to hold that mapping under its account id. *)
Theorem handleImport_store_frame (w : World) :
  (forall account,
     account <> accountId mapping ->
     persisted (fst (import w)) !! account = persisted w !! account) /\
  (persisted (fst (import w)) = persisted w \/
   (saveOutcome mapping = None /\
    persisted (fst (import w)) = <[accountId mapping := mapping]> (persisted w))).
Proof.
  import_cases w; cbn [fst persisted];
    (split;
     [ intros account Hother;
       first [ reflexivity | apply lookup_insert_ne; congruence ]
     | first [ left; reflexivity | right; split; reflexivity ] ]).
Qed.

(** X17: the calls [handleImport] makes to the backend are, in this order, at
    most one save, of the current mapping, and after it at most one check,
    of the transformed rows under the mapping's account: it never checks
    without saving first, and never repeats a call. What was in the trace
    stays in it. *)
Theorem handleImport_backend_calls (w : World) :
  exists events,
    trace (fst (import w)) = (trace w ++ events)%list /\
    (List.filter isBackendCall events = [] \/
     List.filter isBackendCall events = [SaveAccountImportMapping mapping] \/
     exists activities,
       candidates = Ok activities /\
       List.filter isBackendCall events
       = [SaveAccountImportMapping mapping;
          CheckActivitiesImport (accountId mapping) activities]).
Proof.
  import_cases w; cbn [fst trace]; eexists; (split; [reflexivity|]);
    cbn [List.filter isBackendCall];
    first [ left; reflexivity
          | right; left; reflexivity
          | right; right; eexists; split; reflexivity ].
Qed.

(** X18: a rejection of the mutation reaches the page's error callback twice:
    first with the hook's message, prefixed a second time by the form, then
    with the message of the [catch] of [handleImport]; the toast comes in
    between, and the promise of [handleImport] resolves. *)
Theorem handleImport_reports_rejection_twice
    (activities : list ActivityImport) (e : JsError) (w : World) :
  candidates = Ok activities ->
  validateActivities activities = ∅ ->
  (saveOutcome mapping = Some e ->
   import w
   = ({| persisted := persisted w;
         trace := trace w ++
                  [SaveAccountImportMapping mapping;
                   CallOnError ("Import failed: " ++ "Import failed: "
                                ++ toStringCell (errorMessage e));
                   ToastDestructive "Error importing activities" (errorMessage e);
                   CallOnError ("Import failed: " ++ toStringError e)] |},
      Ok tt)) /\
  (saveOutcome mapping = None ->
   checkOutcome (accountId mapping) activities = inl e ->
   import w
   = ({| persisted := <[accountId mapping := mapping]> (persisted w);
         trace := trace w ++
                  [SaveAccountImportMapping mapping;
                   CheckActivitiesImport (accountId mapping) activities;
                   CallOnError ("Import failed: " ++ "Import failed: "
                                ++ toStringCell (errorMessage e));
                   ToastDestructive "Error importing activities" (errorMessage e);
                   CallOnError ("Import failed: " ++ toStringError e)] |},
      Ok tt)).
Proof.
  intros Hcandidates Hclean.
  assert (Hsize : (0 <? size (validateActivities activities))%nat = false)
    by (rewrite Hclean, map_size_empty; reflexivity).
  split.
  - intros Hsave.
    exact (handleImport_save_rejected activities e w Hcandidates Hsize Hsave).
  - intros Hsave Hcheck.
    exact (handleImport_check_rejected activities e w Hcandidates Hsize Hsave Hcheck).
Qed.

(** X19: one row without a cell under the ActivityType or Symbol header aborts
    the import of the whole file: the error callback gets the [TypeError],
    nothing is validated, saved or checked, and no validation error is
    shown. *)
Theorem handleImport_short_row_aborts (row : list string) (w : World) :
  In row (skipn 1 csvData) ->
  resolve row ActivityType = Undefined \/ resolve row Symbol = Undefined ->
  import w
  = ({| persisted := persisted w;
        trace := trace w ++
                 [CallOnError ("Import failed: "
                               ++ toStringError (typeErrorReading "trim"))] |},
     Ok tt).
Proof.
  intros Hin Hcell. apply handleImport_failed.
  exact (activitiesToImport_undefined_cell headers mapping accounts isCashActivity
           csvData row Hin Hcell).
Qed.

(** X20: a file with no row after the header row gives the empty batch, whatever
    the mapping; when the validator accepts the empty batch the mapping is
    saved all the same and the empty batch is submitted for the check. *)
Theorem handleImport_header_only_file (checked : list ActivityImport) (w : World) :
  (List.length csvData <= 1)%nat ->
  validateActivities [] = ∅ ->
  saveOutcome mapping = None ->
  checkOutcome (accountId mapping) [] = inr checked ->
  candidates = Ok [] /\
  import w
  = ({| persisted := <[accountId mapping := mapping]> (persisted w);
        trace := trace w ++
                 [SaveAccountImportMapping mapping;
                  CheckActivitiesImport (accountId mapping) [];
                  InvalidateImportMapping;
                  CallOnSuccess checked] |},
     Ok tt).
Proof.
  intros Hshort Hclean Hsave Hcheck.
  assert (Hcandidates : candidates = Ok []).
  { unfold activitiesToImport.
    destruct csvData as [|header [|row rest]]; simpl in *; [reflexivity..|lia]. }
  split; [exact Hcandidates|].
  apply handleImport_accepted; [exact Hcandidates| |exact Hsave|exact Hcheck].
  rewrite Hclean, map_size_empty. reflexivity.
Qed.

End ImportRun.

(** ** The hook without callbacks *)

(** X21: the callbacks of [useActivityImportMutations] are optional. Without
    them the mutation treats the backend and the store as with them, and a
    rejection still raises the toast and is passed on to the caller of
    [mutateAsync]. *)
Theorem saveAndCheckImportMutation_without_callbacks
    (saveOutcome : ImportMappingData -> option JsError)
    (checkOutcome : string -> list ActivityImport -> JsError + list ActivityImport)
    (data : ImportMappingData) (activities : list ActivityImport) (w : World) :
  (forall e,
     saveOutcome data = Some e ->
     saveAndCheckImportMutation saveOutcome checkOutcome None None data activities w
     = ({| persisted := persisted w;
           trace := trace w ++
                    [SaveAccountImportMapping data;
                     ToastDestructive "Error importing activities"
                       (errorMessage e)] |},
        Throw e)) /\
  (forall e,
     saveOutcome data = None ->
     checkOutcome (accountId data) activities = inl e ->
     saveAndCheckImportMutation saveOutcome checkOutcome None None data activities w
     = ({| persisted := <[accountId data := data]> (persisted w);
           trace := trace w ++
                    [SaveAccountImportMapping data;
                     CheckActivitiesImport (accountId data) activities;
                     ToastDestructive "Error importing activities"
                       (errorMessage e)] |},
        Throw e)) /\
  (forall checked,
     saveOutcome data = None ->
     checkOutcome (accountId data) activities = inr checked ->
     saveAndCheckImportMutation saveOutcome checkOutcome None None data activities w
     = ({| persisted := <[accountId data := data]> (persisted w);
           trace := trace w ++
                    [SaveAccountImportMapping data;
                     CheckActivitiesImport (accountId data) activities;
                     InvalidateImportMapping] |},
        Ok checked)).
Proof.
  split; [|split].
  - intros e Hsave.
    unfold saveAndCheckImportMutation, tryCatch, mutationFn, mutationOnError,
      saveAccountImportMapping, callOptional, bind, throw, ret.
    rewrite !emit_run. simpl. rewrite Hsave. simpl.
    rewrite <- !app_assoc. reflexivity.
  - intros e Hsave Hcheck.
    unfold saveAndCheckImportMutation, tryCatch, mutationFn, mutationOnError,
      saveAccountImportMapping, checkActivitiesImport, callOptional, bind,
      throw, ret.
    rewrite !emit_run. simpl. rewrite Hsave. simpl. rewrite Hcheck. simpl.
    rewrite <- !app_assoc. reflexivity.
  - intros checked Hsave Hcheck.
    unfold saveAndCheckImportMutation, tryCatch, mutationFn, mutationOnSuccess,
      saveAccountImportMapping, checkActivitiesImport, callOptional, bind, ret.
    rewrite !emit_run. simpl. rewrite Hsave. simpl. rewrite Hcheck. simpl.
    rewrite <- !app_assoc. reflexivity.
Qed.

(** ** What the form renders *)

(** X22: the mapping table is rendered exactly when an account is selected, a
    file is selected, the file is valid CSV, there is no error message (none,
    or an empty one) and no validation error. *)
Theorem PreviewContent_shows_table_iff {File : Type}
    (accountId : string) (selectedFile : option File) (isValidCsv : bool)
    (error : option string) (validationErrors : ValidationErrors) :
  PreviewContent accountId selectedFile isValidCsv error validationErrors
  = ImportMappingTable <->
  accountId <> "" /\ selectedFile <> None /\ isValidCsv = true /\
  (error = None \/ error = Some "") /\ validationErrors = ∅.
Proof.
  unfold PreviewContent.
  assert (Hsize : (0 <? size validationErrors)%nat = false <-> validationErrors = ∅).
  { rewrite Nat.ltb_ge, Nat.le_0_r. apply map_size_empty_iff. }
  destruct accountId as [|c rest]; simpl.
  - split; [discriminate|]. intros [Hid _]. congruence.
  - destruct selectedFile as [file|].
    + destruct isValidCsv; simpl.
      * destruct error as [[|d message]|]; simpl;
          try (split; [discriminate|];
               intros [_ [_ [_ [[Herror|Herror] _]]]]; discriminate);
          destruct (0 <? size validationErrors)%nat eqn:Herrors;
          (split;
           [ try discriminate; intros _;
             repeat split; try discriminate; auto; apply Hsize; reflexivity
           | try reflexivity;
             intros [_ [_ [_ [_ Hempty]]]]; apply Hsize in Hempty; congruence ]).
      * split; [discriminate|]. intros [_ [_ [Hvalid _]]]. discriminate.
    + split; [discriminate|]. intros [_ [Hfile _]]. congruence.
Qed.

(** X23: the footer never shows the Import button together with the notice of
    an incomplete mapping, and whenever the mapping table is rendered it
    shows exactly one of the two beside the Cancel link: the button when the
    mapping is complete, the notice otherwise. *)
Theorem footer_offers_one_action {File : Type}
    (accountId : string) (selectedFile : option File)
    (isValidCsv isMapComplete isPending : bool)
    (error : option string) (validationErrors : ValidationErrors) :
  (forall disabled,
     In (ImportButton disabled) (footer accountId selectedFile isMapComplete isPending) ->
     ~ In IncompleteMappingNotice
         (footer accountId selectedFile isMapComplete isPending)) /\
  (PreviewContent accountId selectedFile isValidCsv error validationErrors
   = ImportMappingTable ->
   footer accountId selectedFile isMapComplete isPending
   = [CancelLink;
      if isMapComplete then ImportButton isPending else IncompleteMappingNotice]).
Proof.
  split.
  - intros disabled. unfold footer.
    destruct (accountAndFile accountId selectedFile), isMapComplete; simpl;
      intros Hbutton Hnotice;
      repeat match goal with
             | H : _ \/ _ |- _ => destruct H
             | H : False |- _ => destruct H
             end; discriminate.
  - unfold PreviewContent, footer, accountAndFile.
    destruct accountId as [|c rest]; simpl; [discriminate|].
    destruct selectedFile as [file|]; [|discriminate].
    intros _. destruct isMapComplete; reflexivity.
Qed.

(** ** The further properties on the example data *)

Lemma getMappedValue_first_occurrence_witness :
  getMappedValue Examples.headersRepeated Examples.mapping Examples.repeatedRow Symbol
  = Str "AAPL".
Proof.
  apply (getMappedValue_first_occurrence
           Examples.headersRepeated Examples.mapping Examples.repeatedRow Symbol
           "Ticker" ["Trade Date"] ["Side"; "Qty"; "Price"; "Fee"; "Ticker"] "AAPL").
  - reflexivity.
  - reflexivity.
  - intros [Heq|[]]. discriminate.
  - reflexivity.
Defined.

Lemma matchActivityType_ignores_case_and_padding_witness :
  matchActivityType Examples.mapping " Buy - Market"
  = matchActivityType Examples.mapping "BUY - MARKET".
Proof.
  apply (matchActivityType_ignores_case_and_padding
           Examples.mapping " Buy - Market" "BUY - MARKET" ("BUY", Some ["buy"])).
  - reflexivity.
  - left. reflexivity.
  - exists ["buy"], "buy". split; [reflexivity|]. split; [left; reflexivity|].
    exists " - MARKET". reflexivity.
Defined.

Lemma matchActivityType_blank_pattern_catches_all_witness :
  In (matchActivityType Examples.mappingWithBlankPattern "div") ["BUY"; "FEE"].
Proof.
  apply (matchActivityType_blank_pattern_catches_all
           Examples.mappingWithBlankPattern
           [("BUY", Some ["buy"])] [("DIVIDEND", Some ["div"])]
           "FEE" ["fee"; "  "] "  " "div").
  - reflexivity.
  - right. left. reflexivity.
  - reflexivity.
Defined.

Lemma transformRow_fee_is_a_number_witness :
  isNaN (act_fee Examples.buyRecord) = false /\
  (truthyN (parseFloat (getMappedValue Examples.headers Examples.mapping
                          Examples.buyRow Fee)) = true ->
   act_fee Examples.buyRecord
   = parseFloat (getMappedValue Examples.headers Examples.mapping
                   Examples.buyRow Fee)) /\
  (truthyN (parseFloat (getMappedValue Examples.headers Examples.mapping
                          Examples.buyRow Fee)) = false ->
   act_fee Examples.buyRecord = zero).
Proof.
  apply (transformRow_fee_is_a_number
           Examples.headers Examples.mapping Examples.accounts
           Examples.isCashActivity Examples.buyRow Examples.buyRecord).
  vm_compute. reflexivity.
Defined.

Lemma transformRow_currency_fallback_witness :
  (truthyCell (getMappedValue Examples.headers Examples.mapping
                 Examples.buyRow Currency) = true ->
   act_currency Examples.buyRecord
   = getMappedValue Examples.headers Examples.mapping Examples.buyRow Currency) /\
  (truthyCell (getMappedValue Examples.headers Examples.mapping
                 Examples.buyRow Currency) = false ->
   (Examples.accounts = None -> act_currency Examples.buyRecord = Undefined) /\
   (forall others,
      Examples.accounts = Some others ->
      (forall other,
         In other others -> account_id other <> accountId Examples.mapping) ->
      act_currency Examples.buyRecord = Undefined) /\
   (forall before account after,
      Examples.accounts = Some (before ++ account :: after)%list ->
      account_id account = accountId Examples.mapping ->
      (forall other,
         In other before -> account_id other <> accountId Examples.mapping) ->
      act_currency Examples.buyRecord = Str (account_currency account))).
Proof.
  apply (transformRow_currency_fallback
           Examples.headers Examples.mapping Examples.accounts
           Examples.isCashActivity Examples.buyRow Examples.buyRecord).
  vm_compute. reflexivity.
Defined.

Lemma transformRow_position_style_amount_witness :
  act_amount Examples.buyRecord = None \/
  (act_amount Examples.buyRecord
   = Some (parseFloat (getMappedValue Examples.headersWithAmount
                         Examples.mappingWithAmount Examples.zeroAmountBuyRow Amount)) /\
   truthyCell (getMappedValue Examples.headersWithAmount
                 Examples.mappingWithAmount Examples.zeroAmountBuyRow Amount) = true /\
   truthyN (parseFloat (getMappedValue Examples.headersWithAmount
                          Examples.mappingWithAmount Examples.zeroAmountBuyRow Amount))
   = true).
Proof.
  apply (transformRow_position_style_amount
           Examples.headersWithAmount Examples.mappingWithAmount Examples.accounts
           Examples.isCashActivity Examples.zeroAmountBuyRow Examples.buyRecord).
  - vm_compute. reflexivity.
  - reflexivity.
Defined.

Lemma transformRow_ignores_padded_symbol_keys_witness :
  transformRow Examples.headers
    (withSymbolMappings Examples.mappingWithPaddedKey
       (delete " AAPL " (symbolMappings Examples.mappingWithPaddedKey)))
    Examples.accounts Examples.isCashActivity Examples.unmappedRow
  = transformRow Examples.headers Examples.mappingWithPaddedKey Examples.accounts
      Examples.isCashActivity Examples.unmappedRow.
Proof.
  apply (transformRow_ignores_padded_symbol_keys
           Examples.headers Examples.mappingWithPaddedKey Examples.accounts
           Examples.isCashActivity Examples.unmappedRow " AAPL ").
  vm_compute. discriminate.
Defined.

Lemma twoRowFile_transforms :
  activitiesToImport Examples.headers Examples.mapping Examples.accounts
    Examples.isCashActivity Examples.twoRowFile
  = Ok [Examples.buyRecord; Examples.dividendRecord].
Proof. vm_compute. reflexivity. Qed.

Lemma activitiesToImport_one_record_per_data_row_witness :
  List.length [Examples.buyRecord; Examples.dividendRecord]
  = (List.length Examples.twoRowFile - 1)%nat /\
  (forall i row,
     nth_error Examples.twoRowFile (S i) = Some row ->
     exists rec,
       nth_error [Examples.buyRecord; Examples.dividendRecord] i = Some rec /\
       transformRow Examples.headers Examples.mapping Examples.accounts
         Examples.isCashActivity row = Ok rec).
Proof.
  apply (activitiesToImport_one_record_per_data_row
           Examples.headers Examples.mapping Examples.accounts
           Examples.isCashActivity Examples.twoRowFile
           [Examples.buyRecord; Examples.dividendRecord]).
  vm_compute. reflexivity.
Defined.

Lemma activitiesToImport_total_on_full_rows_witness :
  exists activities,
    activitiesToImport Examples.headers Examples.mapping Examples.accounts
      Examples.isCashActivity Examples.twoRowFile = Ok activities.
Proof.
  apply (activitiesToImport_total_on_full_rows
           Examples.headers Examples.mapping Examples.accounts
           Examples.isCashActivity Examples.twoRowFile).
  intros row [<-|[<-|[]]]; simpl; lia.
Defined.

Lemma handleImport_reports_rejection_twice_witness :
  (Examples.saveFails Examples.mapping
   = Some (ErrorObj "Error" "database is locked") ->
   handleImport Examples.saveFails Examples.checkOk Examples.headers
     Examples.mapping Examples.accounts Examples.isCashActivity
     [Examples.headers; Examples.buyRow] Examples.validateDates Examples.emptyWorld
   = ({| persisted := ∅;
         trace := [SaveAccountImportMapping Examples.mapping;
                   CallOnError
                     "Import failed: Import failed: database is locked";
                   ToastDestructive "Error importing activities"
                     (Str "database is locked");
                   CallOnError "Import failed: Error: database is locked"] |},
      Ok tt)) /\
  (Examples.saveFails Examples.mapping = None ->
   Examples.checkOk (accountId Examples.mapping) [Examples.buyRecord]
   = inl (ErrorObj "Error" "database is locked") ->
   handleImport Examples.saveFails Examples.checkOk Examples.headers
     Examples.mapping Examples.accounts Examples.isCashActivity
     [Examples.headers; Examples.buyRow] Examples.validateDates Examples.emptyWorld
   = ({| persisted := <[accountId Examples.mapping := Examples.mapping]> ∅;
         trace := [SaveAccountImportMapping Examples.mapping;
                   CheckActivitiesImport (accountId Examples.mapping)
                     [Examples.buyRecord];
                   CallOnError
                     "Import failed: Import failed: database is locked";
                   ToastDestructive "Error importing activities"
                     (Str "database is locked");
                   CallOnError "Import failed: Error: database is locked"] |},
      Ok tt)).
Proof.
  apply (handleImport_reports_rejection_twice
           Examples.saveFails Examples.checkOk Examples.headers Examples.mapping
           Examples.accounts Examples.isCashActivity
           [Examples.headers; Examples.buyRow] Examples.validateDates
           [Examples.buyRecord] (ErrorObj "Error" "database is locked")
           Examples.emptyWorld).
  - vm_compute. reflexivity.
  - reflexivity.
Defined.

Lemma handleImport_short_row_aborts_witness :
  handleImport Examples.saveOk Examples.checkOk Examples.headers Examples.mapping
    Examples.accounts Examples.isCashActivity Examples.shortFile
    Examples.validateDates Examples.emptyWorld
  = ({| persisted := ∅;
        trace := [CallOnError
                    ("Import failed: "
                     ++ toStringError (typeErrorReading "trim"))] |},
     Ok tt).
Proof.
  apply (handleImport_short_row_aborts
           Examples.saveOk Examples.checkOk Examples.headers Examples.mapping
           Examples.accounts Examples.isCashActivity Examples.shortFile
           Examples.validateDates Examples.shortRow Examples.emptyWorld).
  - right. left. reflexivity.
  - right. reflexivity.
Defined.

Lemma handleImport_header_only_file_witness :
  activitiesToImport Examples.headers Examples.mapping Examples.accounts
    Examples.isCashActivity Examples.headerOnlyFile = Ok [] /\
  handleImport Examples.saveOk Examples.checkOk Examples.headers Examples.mapping
    Examples.accounts Examples.isCashActivity Examples.headerOnlyFile
    Examples.validateDates Examples.emptyWorld
  = ({| persisted := <[accountId Examples.mapping := Examples.mapping]> ∅;
        trace := [SaveAccountImportMapping Examples.mapping;
                  CheckActivitiesImport (accountId Examples.mapping) [];
                  InvalidateImportMapping;
                  CallOnSuccess []] |},
     Ok tt).
Proof.
  apply (handleImport_header_only_file
           Examples.saveOk Examples.checkOk Examples.headers Examples.mapping
           Examples.accounts Examples.isCashActivity Examples.headerOnlyFile
           Examples.validateDates [] Examples.emptyWorld).
  - simpl. lia.
  - reflexivity.
  - reflexivity.
  - reflexivity.
Defined.

(** ** The callbacks of the form and of the hook *)

(** [handleImport] is [handleImportWith] at the recording callbacks. *)
Lemma handleImport_records_its_callbacks
    (saveOutcome : ImportMappingData -> option JsError)
    (checkOutcome : string -> list ActivityImport -> JsError + list ActivityImport)
    (headers : list string) (mapping : ImportMappingData)
    (accounts : option (list Account)) (isCashActivity : ActivityTypeName -> bool)
    (csvData : list (list string))
    (validateActivities : list ActivityImport -> ValidationErrors) :
  handleImport saveOutcome checkOutcome headers mapping accounts isCashActivity
    csvData validateActivities
  = handleImportWith saveOutcome checkOutcome headers mapping accounts
      isCashActivity csvData validateActivities propsOnSuccess propsOnError.
Proof. reflexivity. Qed.

Lemma handleImport_never_throws_witness :
  snd (handleImportWith Examples.saveOk Examples.checkOk Examples.headers
         Examples.mapping Examples.accounts Examples.isCashActivity
         Examples.shortFile Examples.validateDates propsOnSuccess propsOnError
         Examples.emptyWorld)
  = Ok tt /\
  handleImportWith Examples.saveOk Examples.checkOk Examples.headers
    Examples.mapping Examples.accounts Examples.isCashActivity
    Examples.shortFile Examples.validateDates propsOnSuccess
    (fun message => throw (ErrorStr message)) Examples.emptyWorld
  = (Examples.emptyWorld,
     Throw (ErrorStr ("Import failed: "
                      ++ toStringError (typeErrorReading "trim")))).
Proof.
  split.
  - apply (proj1 (handleImport_never_throws
                    Examples.saveOk Examples.checkOk Examples.headers
                    Examples.mapping Examples.accounts Examples.isCashActivity
                    Examples.shortFile Examples.validateDates
                    propsOnSuccess propsOnError Examples.emptyWorld)).
    intros message w'. reflexivity.
  - apply (proj2 (handleImport_never_throws
                    Examples.saveOk Examples.checkOk Examples.headers
                    Examples.mapping Examples.accounts Examples.isCashActivity
                    Examples.shortFile Examples.validateDates
                    propsOnSuccess (fun message => throw (ErrorStr message))
                    Examples.emptyWorld)
             (typeErrorReading "trim")).
    + vm_compute. reflexivity.
    + reflexivity.
Defined.

(** C5, at the input where the code departs from it: a save, or a check,
    that the backend rejects with a bare string. The mapping is saved
    before the check, a rejected save is followed by no check, the mapping
    saved before a rejected check stays in the store and nothing is tried
    twice, as the claim says; but the caller's error callback gets the text
    ["Import failed: undefined"] and the toast no description, whatever the
    string says: the hook reads [error.message], which a string does not
    have, so the error is not surfaced. *)
Theorem saveAndCheckImportMutation_string_rejection_not_surfaced
    (reason : string)
    (checkOutcome : string -> list ActivityImport -> JsError + list ActivityImport)
    (data : ImportMappingData) (activities : list ActivityImport) (w : World) :
  saveAndCheckImportMutation (fun _ => Some (ErrorStr reason)) checkOutcome
    (Some propsOnSuccess) (Some propsOnError) data activities w
  = ({| persisted := persisted w;
        trace := trace w ++
                 [SaveAccountImportMapping data;
                  CallOnError "Import failed: undefined";
                  ToastDestructive "Error importing activities" Undefined] |},
     Throw (ErrorStr reason)) /\
  saveAndCheckImportMutation (fun _ => None) (fun _ _ => inl (ErrorStr reason))
    (Some propsOnSuccess) (Some propsOnError) data activities w
  = ({| persisted := <[accountId data := data]> (persisted w);
        trace := trace w ++
                 [SaveAccountImportMapping data;
                  CheckActivitiesImport (accountId data) activities;
                  CallOnError "Import failed: undefined";
                  ToastDestructive "Error importing activities" Undefined] |},
     Throw (ErrorStr reason)).
Proof.
  split.
  - unfold saveAndCheckImportMutation, tryCatch, mutationFn, mutationOnError,
      saveAccountImportMapping, callOptional, propsOnError, bind, throw.
    rewrite !emit_run. simpl. rewrite <- !app_assoc. reflexivity.
  - unfold saveAndCheckImportMutation, tryCatch, mutationFn, mutationOnError,
      saveAccountImportMapping, checkActivitiesImport, callOptional,
      propsOnError, bind, throw.
    rewrite !emit_run. simpl. rewrite <- !app_assoc. reflexivity.
Qed.
